(** * github-api: an HTTP facade over the GitHub client

    A shallow embedding of [main.go]: the datastore handle and its
    construction ([New]), the three routes of [NewRouter], the handlers
    [GetCount], [CommitComment] and [PullComment], and [WriteError].

    The program is a thin layer over its libraries.  What the handlers
    observe of them is modelled in a module per package, named after it:
    - [strconv]: [Atoi], following the library's fast and slow path, on a
      64-bit [int];
    - [json]: the encoder, for the two shapes the program encodes (an [int]
      and a one-key map holding a string), and the decoder's reading of
      such a map;
    - [path], [url]: [Clean] on rooted paths and the escaping of a path;
    - [http]: the [ResponseWriter] as a recorder of what the handler did to
      it, with the implicit [WriteHeader(200)] of the first [Write];
    - [mux]: route templates, parsed from the very strings of the source,
      the redirect of a path that is not in canonical form, and the
      matching of a request against the routes in registration order
      (as mux v1.8.1 does it);
    - [oauth2], [github]: the constructors [New] calls, and the remote API
      as an oracle (what each call returns) together with the trace of the
      calls made. *)

From Stdlib Require Import String Ascii List ZArith NArith Bool Lia.
From Stdlib Require Import DecimalString DecimalPos DecimalZ.
Import ListNotations.
Open Scope string_scope.
Open Scope Z_scope.

#[local] Set Warnings "-register-all".

(** Go's [error]: [nil], or a value whose [Error()] is the message. *)
Definition error := option string.

(** ** strconv *)

Module strconv.

(** The two sentinel errors a [*NumError] wraps. *)
Inductive NumError := ErrSyntax | ErrRange.

Definition IntSize : Z := 64.
Definition maxUint64 : Z := 2 ^ 64 - 1.

Definition is_digit (c : ascii) : bool :=
  let n := N_of_ascii c in ((48 <=? n) && (n <=? 57))%N.

Definition digit (c : ascii) : Z := Z.of_N (N_of_ascii c) - 48.

(** [uint64] and [int64] wrap-around. *)
Definition uint64 (z : Z) : Z := z mod 2 ^ 64.
Definition int64 (z : Z) : Z := (z + 2 ^ 63) mod 2 ^ 64 - 2 ^ 63.

(** The digit loop of [ParseUint(s, 10, bitSize)]: a byte that is no
    decimal digit is a syntax error; an overflow returns at once, without
    a look at the bytes that follow. *)
Fixpoint parseUintLoop (maxVal n : Z) (s : string) : Z * option NumError :=
  match s with
  | EmptyString => (n, None)
  | String c rest =>
      if negb (is_digit c) then (0, Some ErrSyntax)
      else
        let cutoff := maxUint64 / 10 + 1 in
        if cutoff <=? n then (maxVal, Some ErrRange)
        else
          let n := uint64 (n * 10) in
          let n1 := uint64 (n + digit c) in
          if (n1 <? n) || (maxVal <? n1) then (maxVal, Some ErrRange)
          else parseUintLoop maxVal n1 rest
  end.

(** [ParseUint(s, 10, 0)]. *)
Definition ParseUint (s : string) : Z * option NumError :=
  match s with
  | EmptyString => (0, Some ErrSyntax)
  | _ => parseUintLoop (2 ^ IntSize - 1) 0 s
  end.

(** [ParseInt(s, 10, 0)]: the sign is picked off, the rest parsed
    unsigned; out of range, the result is the largest magnitude of the
    sign, together with [ErrRange]. *)
Definition ParseInt (s : string) : Z * option NumError :=
  match s with
  | EmptyString => (0, Some ErrSyntax)
  | String c rest =>
      let neg := Ascii.eqb c "-" in
      let s' := if Ascii.eqb c "+" || neg then rest else s in
      let '(un, err) := ParseUint s' in
      match err with
      | Some ErrSyntax => (0, Some ErrSyntax)
      | _ =>
          let cutoff := 2 ^ (IntSize - 1) in
          if negb neg && (cutoff <=? un) then (int64 (cutoff - 1), Some ErrRange)
          else if neg && (cutoff <? un) then (int64 (- int64 cutoff), Some ErrRange)
          else
            let n := int64 un in
            (if neg then int64 (- n) else n, None)
      end
  end.

(** The loop of the fast path of [Atoi]. *)
Fixpoint atoiLoop (n : Z) (s : string) : option Z :=
  match s with
  | EmptyString => Some n
  | String ch rest =>
      if negb (is_digit ch) then None else atoiLoop (n * 10 + digit ch) rest
  end.

(** [Atoi]: strings of 1 to 18 bytes take the fast path, which cannot
    overflow; the others go through [ParseInt]. *)
Definition Atoi (s : string) : Z * option NumError :=
  let sLen := Z.of_nat (String.length s) in
  if (0 <? sLen) && (sLen <? 19) then
    match s with
    | EmptyString => (0, Some ErrSyntax)
    | String c rest =>
        let signed := Ascii.eqb c "-" || Ascii.eqb c "+" in
        let s' := if signed then rest else s in
        if signed && (Z.of_nat (String.length s') <? 1) then (0, Some ErrSyntax)
        else
          match atoiLoop 0 s' with
          | None => (0, Some ErrSyntax)
          | Some n => (if Ascii.eqb c "-" then - n else n, None)
          end
    end
  else ParseInt s.

End strconv.

(** ** encoding/json *)

Module json.

(** The values the program encodes: [len(repos)] and the error envelope
    [map[string]interface{}{"error": msg}]. *)
Inductive value :=
| Int (n : Z)
| Str (s : string)
| Map (fields : list (string * value)).

Definition quote : string := String "034" EmptyString.

Definition hexdigit (n : N) : ascii :=
  ascii_of_N (if (n <? 10)%N then 48 + n else 87 + n)%N.

(** One byte below 0x80, as the encoder writes it (Go 1.22 and later;
    HTML escaping is on by default): short escapes for the quote, the
    backslash and five control bytes, [\u00XX] for the other control
    bytes and for [<], [>] and [&], the byte itself otherwise. *)
Definition escape (c : ascii) : string :=
  let n := N_of_ascii c in
  if Ascii.eqb c "034" then "\" ++ quote
  else if Ascii.eqb c "\" then "\\"
  else if Ascii.eqb c "008" then "\b"
  else if Ascii.eqb c "012" then "\f"
  else if Ascii.eqb c "010" then "\n"
  else if Ascii.eqb c "013" then "\r"
  else if Ascii.eqb c "009" then "\t"
  else if (n <? 32)%N || Ascii.eqb c "<" || Ascii.eqb c ">" || Ascii.eqb c "&"
  then "\u00" ++ String (hexdigit (n / 16)) (String (hexdigit (n mod 16)) EmptyString)
  else String c EmptyString.

(** UTF-8, as [utf8.DecodeRuneInString] reads it: the length of the
    sequence a first byte opens and the range of its second byte ([None]
    for a byte that opens none); the bytes after the second are
    continuation bytes. *)
Definition between (lo hi : N) (c : ascii) : bool :=
  let n := N_of_ascii c in ((lo <=? n) && (n <=? hi))%N.

Definition lead (c : ascii) : option (nat * N * N) :=
  let n := N_of_ascii c in
  if between 194 223 c then Some (2%nat, 128, 191)%N
  else if (n =? 224)%N then Some (3%nat, 160, 191)%N
  else if between 225 236 c || between 238 239 c then Some (3%nat, 128, 191)%N
  else if (n =? 237)%N then Some (3%nat, 128, 159)%N
  else if (n =? 240)%N then Some (4%nat, 144, 191)%N
  else if between 241 243 c then Some (4%nat, 128, 191)%N
  else if (n =? 244)%N then Some (4%nat, 128, 143)%N
  else None.

Definition continuation (c : ascii) : bool := between 128 191 c.

(** What the encoder writes for a byte that opens no valid sequence. *)
Definition replacement : string := "\u" ++ "fffd".

(** A valid sequence of three bytes: U+2028 and U+2029 are escaped, the
    others copied. *)
Definition three (c1 c2 c3 : ascii) : string :=
  if Ascii.eqb c1 "226" && Ascii.eqb c2 "128"
     && (Ascii.eqb c3 "168" || Ascii.eqb c3 "169")
  then "\u202" ++ String (hexdigit (N_of_ascii c3 mod 16)) EmptyString
  else String c1 (String c2 (String c3 EmptyString)).

(** The bytes of a string between its quotes: bytes below 0x80 one by
    one, valid UTF-8 sequences copied, and the escape of U+FFFD in the
    place of each byte that is not part of one. *)
Fixpoint escapes (s : string) : string :=
  match s with
  | EmptyString => EmptyString
  | String c rest =>
      if (N_of_ascii c <? 128)%N then escape c ++ escapes rest
      else
        match lead c, rest with
        | Some (size, lo, hi), String c2 r2 =>
            if between lo hi c2 then
              match size, r2 with
              | 2%nat, _ => String c (String c2 (escapes r2))
              | _, String c3 r3 =>
                  if continuation c3 then
                    match size, r3 with
                    | 3%nat, _ => three c c2 c3 ++ escapes r3
                    | _, String c4 r4 =>
                        if continuation c4
                        then String c (String c2 (String c3 (String c4 (escapes r4))))
                        else replacement ++ escapes rest
                    | _, EmptyString => replacement ++ escapes rest
                    end
                  else replacement ++ escapes rest
              | _, EmptyString => replacement ++ escapes rest
              end
            else replacement ++ escapes rest
        | _, _ => replacement ++ escapes rest
        end
  end.

Definition string_of (s : string) : string := quote ++ escapes s ++ quote.

Definition itoa (n : Z) : string := NilZero.string_of_int (Z.to_int n).

(** [Marshal]; the keys of a map are written in the order of the list
    (the encoder sorts them: the program's maps have one key). *)
Fixpoint Marshal (v : value) : string :=
  match v with
  | Int n => itoa n
  | Str s => string_of s
  | Map fields =>
      let fix members (l : list (string * value)) : string :=
        match l with
        | [] => EmptyString
        | [(k, x)] => string_of k ++ ":" ++ Marshal x
        | (k, x) :: rest => string_of k ++ ":" ++ Marshal x ++ "," ++ members rest
        end in
      "{" ++ members fields ++ "}"
  end.

(** The integer a JSON number denotes (the decoder's reading of it). *)
Definition int_of (s : string) : option Z :=
  option_map Z.of_int (NilZero.int_of_string s).

Definition newline : string := String "010" EmptyString.

(** The value of a hexadecimal digit, in either case. *)
Definition hexval (c : ascii) : option N :=
  let n := N_of_ascii c in
  if between 48 57 c then Some (n - 48)%N
  else if between 97 102 c then Some (n - 87)%N
  else if between 65 70 c then Some (n - 55)%N
  else None.

Definition hex4 (a b c d : ascii) : option N :=
  match hexval a, hexval b, hexval c, hexval d with
  | Some x, Some y, Some z, Some u => Some (((x * 16 + y) * 16 + z) * 16 + u)%N
  | _, _, _, _ => None
  end.

Definition push (c : ascii) (r : option (string * string))
  : option (string * string) :=
  match r with
  | Some (v, rest) => Some (String c v, rest)
  | None => None
  end.

(** The decoder's reading of a string literal, from the byte after its
    opening quote: the string it denotes and the text after the closing
    quote.  The model covers texts below 0x80 whose [\u] escapes denote
    bytes below 0x80, and is [None] on the others, as it is on what the
    decoder refuses (a raw control byte, an unknown escape, no closing
    quote). *)
Fixpoint unquote (s : string) : option (string * string) :=
  match s with
  | EmptyString => None
  | String c rest =>
      if Ascii.eqb c "034" then Some (EmptyString, rest)
      else if Ascii.eqb c "\" then
        match rest with
        | String e r2 =>
            if Ascii.eqb e "034" || Ascii.eqb e "\" || Ascii.eqb e "/"
            then push e (unquote r2)
            else if Ascii.eqb e "b" then push "008" (unquote r2)
            else if Ascii.eqb e "f" then push "012" (unquote r2)
            else if Ascii.eqb e "n" then push "010" (unquote r2)
            else if Ascii.eqb e "r" then push "013" (unquote r2)
            else if Ascii.eqb e "t" then push "009" (unquote r2)
            else if Ascii.eqb e "u" then
              match r2 with
              | String h1 (String h2 (String h3 (String h4 r6))) =>
                  match hex4 h1 h2 h3 h4 with
                  | Some n =>
                      if (n <? 128)%N then push (ascii_of_N n) (unquote r6)
                      else None
                  | None => None
                  end
              | _ => None
              end
            else None
        | EmptyString => None
        end
      else if (N_of_ascii c <? 32)%N then None
      else if (N_of_ascii c <? 128)%N then push c (unquote rest)
      else None
  end.

Fixpoint blank (s : string) : bool :=
  match s with
  | EmptyString => true
  | String c rest =>
      (Ascii.eqb c " " || Ascii.eqb c "009" || Ascii.eqb c "010"
       || Ascii.eqb c "013") && blank rest
  end.

(** The decoder's reading of an object of one member whose value is a
    string, written as the encoder writes it (no space between the
    tokens, white space after the closing brace): the key and the
    value. *)
Definition member (s : string) : option (string * string) :=
  match s with
  | String "{" (String q1 s1) =>
      if Ascii.eqb q1 "034" then
        match unquote s1 with
        | Some (k, String ":" (String q2 s2)) =>
            if Ascii.eqb q2 "034" then
              match unquote s2 with
              | Some (v, String "}" rest) =>
                  if blank rest then Some (k, v) else None
              | _ => None
              end
            else None
        | _ => None
        end
      else None
  | _ => None
  end.

(** What [Encoder.Encode(v)] hands to the writer: the encoding and a
    newline. *)
Definition document (v : value) : string := Marshal v ++ newline.

End json.

(** ** net/http *)

Module http.

Definition StatusOK : Z := 200.
Definition StatusMovedPermanently : Z := 301.
Definition StatusNotFound : Z := 404.
Definition StatusMethodNotAllowed : Z := 405.
Definition StatusInternalServerError : Z := 500.

(** A header map, for the keys the program sets (one value per key). *)
Definition Header := list (string * string).

Fixpoint Del (h : Header) (k : string) : Header :=
  match h with
  | [] => []
  | (k', v) :: rest => if String.eqb k' k then Del rest k else (k', v) :: Del rest k
  end.

Definition Set_ (h : Header) (k v : string) : Header :=
  (Del h k ++ [(k, v)])%list.

(** The [ResponseWriter] a handler is given, as a record of what was done
    to it.  [status] is the code of the first [WriteHeader] and [sent] the
    header map as it stood then (later changes of [header] do not reach
    the client); [codes] lists every code passed to [WriteHeader], the
    ignored ones included; [broken] is the error [Write] returns ([None]
    on a connection that takes the bytes). *)
Record ResponseWriter := {
  header : Header;
  status : option Z;
  sent : Header;
  body : string;
  codes : list Z;
  broken : error
}.

(** A fresh writer on a healthy connection. *)
Definition NewRecorder : ResponseWriter :=
  {| header := []; status := None; sent := []; body := EmptyString;
     codes := []; broken := None |}.

Definition SetHeader (w : ResponseWriter) (k v : string) : ResponseWriter :=
  {| header := Set_ (header w) k v; status := status w; sent := sent w;
     body := body w; codes := codes w; broken := broken w |}.

(** [w.WriteHeader(code)]: the first call fixes status and headers, a
    later one is ignored (the server logs it as superfluous). *)
Definition WriteHeader (w : ResponseWriter) (code : Z) : ResponseWriter :=
  match status w with
  | Some _ =>
      {| header := header w; status := status w; sent := sent w;
         body := body w; codes := (codes w ++ [code])%list; broken := broken w |}
  | None =>
      {| header := header w; status := Some code; sent := header w;
         body := body w; codes := (codes w ++ [code])%list; broken := broken w |}
  end.

(** [w.Write(data)]: writes the header with [StatusOK] first when none was
    written. *)
Definition Write (w : ResponseWriter) (data : string) : ResponseWriter * error :=
  let w := match status w with None => WriteHeader w StatusOK | Some _ => w end in
  match broken w with
  | Some e => (w, Some e)
  | None =>
      ({| header := header w; status := status w; sent := sent w;
          body := body w ++ data; codes := codes w; broken := broken w |}, None)
  end.

(** [json.NewEncoder(w).Encode(v)]: the values of [json.value] always
    marshal, so the only error is the writer's. *)
Definition Encode (w : ResponseWriter) (v : json.value) : ResponseWriter * error :=
  Write w (json.document v).

(** [http.Error]. *)
Definition Error (w : ResponseWriter) (msg : string) (code : Z) : ResponseWriter :=
  let w := SetHeader w "Content-Type" "text/plain; charset=utf-8" in
  let w := SetHeader w "X-Content-Type-Options" "nosniff" in
  let w := WriteHeader w code in
  fst (Write w (msg ++ json.newline)).

(** [http.NotFound]. *)
Definition NotFound (w : ResponseWriter) : ResponseWriter :=
  Error w "404 page not found" StatusNotFound.

(** A request, as far as the program reads it: method, [URL.Path], and
    the route variables the router stores with it ([mux.Vars]). *)
Record Request := {
  Method : string;
  Path : string;
  vars : list (string * string)
}.

(** What the client receives once the handler has returned: a handler
    that wrote nothing leaves the server to answer [200] with an empty
    body. *)
Record Response := {
  StatusCode : Z;
  Headers : Header;
  Body : string
}.

Definition finish (w : ResponseWriter) : Response :=
  match status w with
  | Some code => {| StatusCode := code; Headers := sent w; Body := body w |}
  | None => {| StatusCode := StatusOK; Headers := header w; Body := body w |}
  end.

(** An [http.Client], down to whether it has a transport of its own. *)
Inductive RoundTripper :=
| oauth2Transport (accessToken : string) (base : option RoundTripper).

Record Client := { Transport : option RoundTripper }.

Definition DefaultClient : Client := {| Transport := None |}.

End http.

(** ** context *)

Module context.

Inductive Context := Background.

End context.

(** ** golang.org/x/oauth2 *)

Module oauth2.

Record Token := { AccessToken : string }.

(** The token sources the program builds: a static one, and the reusing
    wrapper [NewClient] puts around it. *)
Inductive TokenSource :=
| staticTokenSource (t : Token)
| reuseTokenSource (new : TokenSource).

(** [StaticTokenSource] returns a value, never a nil interface. *)
Definition StaticTokenSource (t : Token) : option TokenSource :=
  Some (staticTokenSource t).

Definition ReuseTokenSource (src : TokenSource) : TokenSource :=
  match src with
  | reuseTokenSource _ => src
  | _ => reuseTokenSource src
  end.

Fixpoint token (src : TokenSource) : Token :=
  match src with
  | staticTokenSource t => t
  | reuseTokenSource new => token new
  end.

(** [NewClient(ctx, src)]: with [context.Background()] the base client is
    [http.DefaultClient]; a nil source returns it, any other source a new
    client around an [oauth2.Transport].  Either way the pointer returned
    is not nil. *)
Definition NewClient (ctx : context.Context) (src : option TokenSource)
  : option http.Client :=
  match src with
  | None => Some http.DefaultClient
  | Some src =>
      Some {| http.Transport :=
                Some (http.oauth2Transport
                        (AccessToken (token (ReuseTokenSource src)))
                        (http.Transport http.DefaultClient)) |}
  end.

End oauth2.

(** ** github.com/google/go-github/github *)

Module github.

Record User := { Login : string }.
Record Repository := { Name : string }.
Record ListOptions := { Page : Z; PerPage : Z }.

(** The outbound comments; a field is a pointer, [None] when left unset. *)
Record RepositoryComment := {
  rc_ID : option Z;
  rc_CommitID : option string;
  rc_User : option User;
  rc_Body : option string;
  rc_Path : option string;
  rc_Position : option Z
}.

Record PullRequestComment := {
  pc_ID : option Z;
  pc_Body : option string;
  pc_User : option User;
  pc_Path : option string;
  pc_Position : option Z;
  pc_CommitID : option string
}.

(** The services of a client are handles on the client itself. *)
Inductive GitService := gitService.
Inductive RepositoriesService := repositoriesService.
Inductive UsersService := usersService.
Inductive PullRequestsService := pullRequestsService.

Record Client := {
  client : http.Client;
  BaseURL : string;
  UserAgent : string;
  Git : option GitService;
  Repositories : option RepositoriesService;
  Users : option UsersService;
  PullRequests : option PullRequestsService
}.

(** [NewClient(httpClient)]: a nil argument is replaced by a default
    client, and every service is set before the client is returned. *)
Definition NewClient (httpClient : option http.Client) : option Client :=
  let httpClient :=
    match httpClient with Some c => c | None => http.DefaultClient end in
  Some {| client := httpClient;
          BaseURL := "https://api.github.com/";
          UserAgent := "go-github";
          Git := Some gitService;
          Repositories := Some repositoriesService;
          Users := Some usersService;
          PullRequests := Some pullRequestsService |}.

(** The remote API as the handlers see it: what each of the four calls
    returns (the [*Response] in the middle of each result is dropped, as
    the program drops it). *)
Record API := {
  list_repositories : string -> option ListOptions -> list Repository * error;
  get_user : string -> option User * error;
  create_commit_comment :
    string -> string -> string -> RepositoryComment
    -> option RepositoryComment * error;
  create_pull_comment :
    string -> string -> Z -> PullRequestComment
    -> option PullRequestComment * error
}.

(** A call made to the remote API, with its arguments. *)
Inductive Call :=
| ListRepositories (owner : string) (opt : option ListOptions)
| GetUser (user : string)
| CreateCommitComment (owner repo sha : string) (comment : RepositoryComment)
| CreatePullComment (owner repo : string) (number : Z)
    (comment : PullRequestComment).

Definition is_create (c : Call) : bool :=
  match c with
  | CreateCommitComment _ _ _ _ | CreatePullComment _ _ _ _ => true
  | _ => false
  end.

End github.

(** ** strings, path and net/url *)

(** [strings.Split(s, "/")]. *)
Fixpoint segments (s : string) : list string :=
  match s with
  | EmptyString => [EmptyString]
  | String c rest =>
      if Ascii.eqb c "/" then EmptyString :: segments rest
      else match segments rest with
           | h :: t => String c h :: t
           | [] => [String c EmptyString]
           end
  end.

(** [strings.Join(l, "/")]. *)
Fixpoint join (l : list string) : string :=
  match l with
  | [] => EmptyString
  | [x] => x
  | x :: rest => x ++ String "/" (join rest)
  end.

Module path.

(** The elements of a rooted path that [Clean] keeps, in order: an empty
    element and [.] are dropped, [..] drops the element kept before it
    (and itself, at the root); [kept] holds the elements kept so far, the
    last one first. *)
Fixpoint cleanElements (kept : list string) (elements : list string)
  : list string :=
  match elements with
  | [] => rev kept
  | e :: rest =>
      if String.eqb e EmptyString || String.eqb e "." then cleanElements kept rest
      else if String.eqb e ".." then cleanElements (tl kept) rest
      else cleanElements (e :: kept) rest
  end.

(** [path.Clean(p)] for a path [p] that begins with a slash. *)
Definition Clean (p : string) : string :=
  match cleanElements [] (segments p) with
  | [] => "/"
  | l => String "/" (join l)
  end.

End path.

Module url.

Definition upperhex (n : N) : ascii :=
  ascii_of_N (if (n <? 10)%N then 48 + n else 55 + n)%N.

(** [shouldEscape(c, encodePath)]: letters, digits, [-_.~] and
    [$&+,/:;=@] stand as they are. *)
Definition shouldEscape (c : ascii) : bool :=
  let n := N_of_ascii c in
  negb (((48 <=? n) && (n <=? 57))%N || ((65 <=? n) && (n <=? 90))%N
        || ((97 <=? n) && (n <=? 122))%N
        || existsb (Ascii.eqb c)
             ["-"; "_"; "."; "~"; "$"; "&"; "+"; ","; "/"; ":"; ";"; "="; "@"]%char).

(** [escape(path, encodePath)], what [URL.String] writes for a URL that
    has a path alone. *)
Fixpoint EscapedPath (p : string) : string :=
  match p with
  | EmptyString => EmptyString
  | String c rest =>
      if shouldEscape c
      then String "%" (String (upperhex (N_of_ascii c / 16))
                         (String (upperhex (N_of_ascii c mod 16)) (EscapedPath rest)))
      else String c (EscapedPath rest)
  end.

End url.

(** ** github.com/gorilla/mux *)

Module mux.

(** The two patterns of the program's routes: [[^/]+], the default of a
    variable, and [[0-9]+]. *)
Inductive class := NotSlash | Digits.

Definition in_class (k : class) (c : ascii) : bool :=
  match k with
  | NotSlash => negb (Ascii.eqb c "/")
  | Digits => strconv.is_digit c
  end.

(** A template is a sequence of literal text and variables. *)
Inductive item :=
| Lit (s : string)
| Var (name : string) (k : class).

Definition defaultPattern : string := "[^/]+".

(** The pattern of a variable; any other regular expression is outside
    the model and makes the route one that never matches. *)
Definition compile (patt : string) : option class :=
  if String.eqb patt "[^/]+" then Some NotSlash
  else if String.eqb patt "[0-9]+" then Some Digits
  else None.

(** [strings.SplitN(s, ":", 2)]. *)
Fixpoint splitColon (s : string) : string * option string :=
  match s with
  | EmptyString => (EmptyString, None)
  | String c rest =>
      if Ascii.eqb c ":" then (EmptyString, Some rest)
      else let '(a, b) := splitColon rest in (String c a, b)
  end.

(** The text between two braces: [name] or [name:pattern], neither
    empty. *)
Definition variable (text : string) : option item :=
  let '(name, p) := splitColon text in
  let patt := match p with Some p => p | None => defaultPattern end in
  if String.eqb name EmptyString || String.eqb patt EmptyString then None
  else option_map (Var name) (compile patt).

(** The scan of a template: [lit] collects the literal text before the
    next brace, [inside] the text of an open variable.  Unbalanced braces
    are an error (nested ones too, here). *)
Fixpoint parse (tpl lit : string) (inside : option string) : option (list item) :=
  match tpl, inside with
  | EmptyString, None => Some [Lit lit]
  | EmptyString, Some _ => None
  | String c rest, None =>
      if Ascii.eqb c "{" then option_map (cons (Lit lit)) (parse rest EmptyString (Some EmptyString))
      else if Ascii.eqb c "}" then None
      else parse rest (lit ++ String c EmptyString) None
  | String c rest, Some v =>
      if Ascii.eqb c "}" then
        match variable v, parse rest EmptyString None with
        | Some it, Some items => Some (it :: items)
        | _, _ => None
        end
      else if Ascii.eqb c "{" then None
      else parse rest lit (Some (v ++ String c EmptyString))
  end.

Definition newRouteRegexp (tpl : string) : option (list item) :=
  parse tpl EmptyString None.

Fixpoint stripPrefix (p s : string) : option string :=
  match p, s with
  | EmptyString, _ => Some s
  | String a p', String b s' => if Ascii.eqb a b then stripPrefix p' s' else None
  | String _ _, EmptyString => None
  end.

Definition RouteVars := list (string * string).

(** A variable [(?P<name>k+)] followed by the rest of the expression
    [cont]: the longest run of bytes of the class is tried first, then
    the shorter ones. *)
Fixpoint matchVar (k : class) (name : string) (cont : string -> option RouteVars)
    (taken s : string) : option RouteVars :=
  match s with
  | EmptyString => None
  | String c s' =>
      if in_class k c then
        let taken := taken ++ String c EmptyString in
        match matchVar k name cont taken s' with
        | Some vs => Some vs
        | None => option_map (cons (name, taken)) (cont s')
        end
      else None
  end.

(** The match of a whole path against a template, anchored at both ends,
    with the values of the variables. *)
Fixpoint matchItems (items : list item) (s : string) : option RouteVars :=
  match items with
  | [] => match s with EmptyString => Some [] | _ => None end
  | Lit l :: rest =>
      match stripPrefix l s with
      | Some s' => matchItems rest s'
      | None => None
      end
  | Var name k :: rest => matchVar k name (matchItems rest) EmptyString s
  end.

(** [vars[key]] on the map [mux.RouteVars(r)] returns: the empty string for a
    key that is not there. *)
Fixpoint index (m : RouteVars) (key : string) : string :=
  match m with
  | [] => EmptyString
  | (k, v) :: rest => if String.eqb k key then v else index rest key
  end.

(** [mux.Vars(r)]. *)
Definition Vars (r : http.Request) : RouteVars := http.vars r.

(** [p[len(p)-1] == '/']. *)
Fixpoint endsWithSlash (p : string) : bool :=
  match p with
  | EmptyString => false
  | String c EmptyString => Ascii.eqb c "/"
  | String _ rest => endsWithSlash rest
  end.

(** [cleanPath]: the canonical form of a request path: rooted, cleaned
    by [path.Clean], with the trailing slash put back. *)
Definition cleanPath (p : string) : string :=
  match p with
  | EmptyString => "/"
  | String c _ =>
      let p := if Ascii.eqb c "/" then p else String "/" p in
      let np := path.Clean p in
      if endsWithSlash p && negb (String.eqb np "/") then np ++ "/" else np
  end.

Section Router.

Variable H : Type.

(** [r.Methods(m).Path(tpl).Handler(h)]. *)
Record Route := {
  methods : list string;
  regexp : option (list item);
  handler : H
}.

Definition Router := list Route.

Inductive MatchErr := ErrMethodMismatch | ErrNotFound.

Inductive RouteMatch :=
| Matched (h : H) (vs : RouteVars)
| NoMatch (e : MatchErr).

Definition matchPath (r : Route) (path : string) : option RouteVars :=
  match regexp r with
  | Some items => matchItems items path
  | None => None
  end.

(** [Router.Match] (mux v1.8.1): the first route, in registration
    order, whose matchers all match.  The matchers of a route run in the
    order they were added, the method before the path.  [mismatch] is
    [match.MatchErr == ErrMethodMismatch]: a route whose path matches
    and whose method does not sets it, and a matcher that matches, of
    this route or of a later one, clears it. *)
Fixpoint Match (routes : Router) (req : http.Request) (mismatch : bool)
  : RouteMatch :=
  match routes with
  | [] => NoMatch (if mismatch then ErrMethodMismatch else ErrNotFound)
  | r :: rest =>
      let method := existsb (String.eqb (http.Method req)) (methods r) in
      let mismatch := if method then false else mismatch in
      match matchPath r (http.Path req) with
      | Some vs =>
          if method then Matched (handler r) vs else Match rest req true
      | None => Match rest req mismatch
      end
  end.

End Router.

Arguments methods {H}.
Arguments regexp {H}.
Arguments handler {H}.
Arguments Matched {H}.
Arguments NoMatch {H}.
Arguments Match {H}.
Arguments matchPath {H}.

Definition route {H : Type} (method tpl : string) (h : H) : Route H :=
  {| methods := [method]; regexp := newRouteRegexp tpl; handler := h |}.

End mux.

(** ** package main *)

Record datastore := {
  Context : context.Context;
  Client : option github.Client;
  Service : option github.GitService
}.

Definition port : Z := 5000.

(** What the program prints on its standard output. *)
Inductive Printed :=
| PrintError (msg : string)
| PrintComment (c : option github.PullRequestComment).

(** The state a handler runs in: the remote API, the response writer of
    the request, the calls made to the API so far and the lines printed. *)
Record World := {
  api : github.API;
  w : http.ResponseWriter;
  calls : list github.Call;
  stdout : list Printed
}.

(** A computation of a handler; [None] is a panic (a nil pointer
    dereferenced). *)
Definition M (A : Type) : Type := World -> option A * World.

Definition ret {A} (a : A) : M A := fun s => (Some a, s).

Definition bind {A B} (m : M A) (f : A -> M B) : M B :=
  fun s => match m s with
           | (Some a, s') => f a s'
           | (None, s') => (None, s')
           end.

Notation "x <- m ;; k" := (bind m (fun x => k))
  (at level 61, m at next level, right associativity).
Notation "' pat <- m ;; k" := (bind m (fun x => match x with pat => k end))
  (at level 61, pat pattern, m at next level, right associativity).
Notation "m ;;; k" := (bind m (fun _ => k))
  (at level 61, right associativity).

Definition deref {A} (p : option A) : M A := fun s => (p, s).

Definition onWriter {A} (f : http.ResponseWriter -> http.ResponseWriter * A) : M A :=
  fun s =>
    let '(w', a) := f (w s) in
    (Some a, {| api := api s; w := w'; calls := calls s; stdout := stdout s |}).

Definition called (c : github.Call) : M unit :=
  fun s =>
    (Some tt, {| api := api s; w := w s; calls := (calls s ++ [c])%list;
                 stdout := stdout s |}).

Definition Println (p : Printed) : M unit :=
  fun s =>
    (Some tt, {| api := api s; w := w s; calls := calls s;
                 stdout := (stdout s ++ [p])%list |}).

Definition remote {A} (f : github.API -> A) : M A := fun s => (Some (f (api s)), s).

(** The four methods of the client's services the handlers call. *)
Definition Repositories_List (s : github.RepositoriesService)
    (ctx : context.Context) (owner : string) (opt : option github.ListOptions)
  : M (list github.Repository * error) :=
  called (github.ListRepositories owner opt) ;;;
  remote (fun a => github.list_repositories a owner opt).

Definition Users_Get (s : github.UsersService) (ctx : context.Context)
    (user : string) : M (option github.User * error) :=
  called (github.GetUser user) ;;;
  remote (fun a => github.get_user a user).

Definition Repositories_CreateComment (s : github.RepositoriesService)
    (ctx : context.Context) (owner repo sha : string)
    (comment : github.RepositoryComment)
  : M (option github.RepositoryComment * error) :=
  called (github.CreateCommitComment owner repo sha comment) ;;;
  remote (fun a => github.create_commit_comment a owner repo sha comment).

Definition PullRequests_CreateComment (s : github.PullRequestsService)
    (ctx : context.Context) (owner repo : string) (number : Z)
    (comment : github.PullRequestComment)
  : M (option github.PullRequestComment * error) :=
  called (github.CreatePullComment owner repo number comment) ;;;
  remote (fun a => github.create_pull_comment a owner repo number comment).

Definition HandlerFunc : Type := http.Request -> M unit.

(** [WriteError]: on an error, status 500 and the envelope
    [{"error": err.Error()}]; the result of [Encode] is dropped. *)
Definition WriteError (w : http.ResponseWriter) (err : error)
  : http.ResponseWriter * bool :=
  match err with
  | Some msg =>
      let w := http.WriteHeader w http.StatusInternalServerError in
      let '(w, _) := http.Encode w (json.Map [("error", json.Str msg)]) in
      (w, true)
  | None => (w, false)
  end.

(** [New]: the datastore around a GitHub client for the token. *)
Definition New (authToken : string) : option datastore * error :=
  let ctx := context.Background in
  let ts := oauth2.StaticTokenSource {| oauth2.AccessToken := authToken |} in
  let tc := oauth2.NewClient ctx ts in
  match tc with
  | None => (None, Some "Access Token Invalid")
  | Some _ =>
      let client := github.NewClient tc in
      match client with
      | None => (None, Some "Error creating Github client")
      | Some c =>
          (Some {| Context := ctx; Client := client; Service := github.Git c |},
           None)
      end
  end.

Definition GetCount (data : datastore) : HandlerFunc :=
  fun r =>
    let vars := mux.Vars r in
    let owner := mux.index vars "owner" in
    client <- deref (Client data) ;;
    repositories <- deref (github.Repositories client) ;;
    '(repos, err) <- Repositories_List repositories (Context data) owner None ;;
    handled <- onWriter (fun w => WriteError w err) ;;
    if handled : bool then ret tt
    else
      onWriter (fun w =>
        (http.SetHeader w "Content-Type" "application/json; charset=utf-8", tt)) ;;;
      err <- onWriter (fun w =>
        http.Encode w (json.Int (Z.of_nat (List.length repos)))) ;;
      onWriter (fun w => WriteError w err) ;;;
      ret tt.

Definition commitMessage : string :=
  "Commit message... replace me with message taken from request body.".

Definition CommitComment (data : datastore) : HandlerFunc :=
  fun r =>
    let vars := mux.Vars r in
    let owner := mux.index vars "owner" in
    let repo := mux.index vars "repo" in
    let commit := mux.index vars "commit" in
    client <- deref (Client data) ;;
    users <- deref (github.Users client) ;;
    '(user, err) <- Users_Get users context.Background owner ;;
    handled <- onWriter (fun w => WriteError w err) ;;
    if handled : bool then ret tt
    else
      let msg := commitMessage in
      let newComment :=
        {| github.rc_ID := None;
           github.rc_CommitID := Some commit;
           github.rc_User := user;
           github.rc_Body := Some msg;
           github.rc_Path := None;
           github.rc_Position := Some 1 |} in
      repositories <- deref (github.Repositories client) ;;
      Repositories_CreateComment repositories context.Background
        owner repo commit newComment ;;;
      ret tt.

Definition pullMessage : string := "hard coded comment message".

Definition PullComment (data : datastore) : HandlerFunc :=
  fun r =>
    let vars := mux.Vars r in
    let owner := mux.index vars "owner" in
    let repo := mux.index vars "repo" in
    let '(number, _) := strconv.Atoi (mux.index vars "number") in
    let commit := mux.index vars "commit" in
    let path := mux.index vars "path" in
    let '(position, _) := strconv.Atoi (mux.index vars "position") in
    let msg := pullMessage in
    client <- deref (Client data) ;;
    users <- deref (github.Users client) ;;
    '(user, err) <- Users_Get users context.Background owner ;;
    handled <- onWriter (fun w => WriteError w err) ;;
    if handled : bool then ret tt
    else
      let newComment :=
        {| github.pc_ID := None;
           github.pc_Body := Some msg;
           github.pc_User := user;
           github.pc_Path := Some path;
           github.pc_Position := Some position;
           github.pc_CommitID := Some commit |} in
      pulls <- deref (github.PullRequests client) ;;
      '(cmt, err) <- PullRequests_CreateComment pulls context.Background
                       owner repo number newComment ;;
      match err with
      | Some msg => Println (PrintError msg)
      | None => ret tt
      end ;;;
      Println (PrintComment cmt).

(** [NewRouter]: the three routes, in the order they are registered. *)
Definition NewRouter (data : datastore) : mux.Router HandlerFunc :=
  [ mux.route "GET" "/{owner}/repos/count" (GetCount data);
    mux.route "POST" "/{owner}/repos/{repo}/{commit}/comment" (CommitComment data);
    mux.route "POST"
      "/{owner}/pulls/{number:[0-9]+}/{commit}/{path}/{position:[0-9]+}/comment"
      (PullComment data) ].

(** [Router.ServeHTTP]: a path that is not in canonical form is answered
    by a redirect to that form (301, with the [Location] header) and
    nothing else runs; otherwise the matched handler runs on the request
    with its variables, a path that matched under another method only is
    answered 405, anything else by [http.NotFound]. *)
Definition ServeHTTP (router : mux.Router HandlerFunc) : HandlerFunc :=
  fun r =>
    let p := mux.cleanPath (http.Path r) in
    if negb (String.eqb p (http.Path r)) then
      onWriter (fun w =>
        (http.WriteHeader (http.SetHeader w "Location" (url.EscapedPath p))
           http.StatusMovedPermanently, tt))
    else
      match mux.Match router r false with
      | mux.Matched h vs =>
          h {| http.Method := http.Method r; http.Path := http.Path r;
               http.vars := vs |}
      | mux.NoMatch mux.ErrMethodMismatch =>
          onWriter (fun w => (http.WriteHeader w http.StatusMethodNotAllowed, tt))
      | mux.NoMatch mux.ErrNotFound =>
          onWriter (fun w => (http.NotFound w, tt))
      end.

(** [main], up to the call of [http.ListenAndServe]: fatal on an error
    or a nil handle or client, else the router served on [port]. *)
Inductive Startup :=
| Fatal (msg : string) (err : error)
| ListenAndServe (addr : Z) (router : mux.Router HandlerFunc).

Definition main (TOKEN : string) : Startup :=
  let '(data, err) := New TOKEN in
  match err, data with
  | Some _, _ | None, None => Fatal "Invalid Github client:" err
  | None, Some d =>
      match Client d with
      | None => Fatal "Invalid Github client:" err
      | Some _ => ListenAndServe port (NewRouter d)
      end
  end.

(** One request served: a fresh writer, no call made yet, the handler run
    to its end. *)
Definition start (a : github.API) : World :=
  {| api := a; w := http.NewRecorder; calls := []; stdout := [] |}.

Definition serve (h : HandlerFunc) (a : github.API) (r : http.Request) : option unit * World :=
  h r (start a).

Definition request (method path : string) : http.Request :=
  {| http.Method := method; http.Path := path; http.vars := [] |}.

(** ** Vocabulary of the statements *)

(** The handle [New] returns, written out. *)
Definition handle (authToken : string) : datastore :=
  {| Context := context.Background;
     Client :=
       Some {| github.client :=
                 {| http.Transport := Some (http.oauth2Transport authToken None) |};
               github.BaseURL := "https://api.github.com/";
               github.UserAgent := "go-github";
               github.Git := Some github.gitService;
               github.Repositories := Some github.repositoriesService;
               github.Users := Some github.usersService;
               github.PullRequests := Some github.pullRequestsService |};
     Service := Some github.gitService |}.

Definition contentType : string := "application/json; charset=utf-8".

(** The body [WriteError] writes for a message. *)
Definition envelope (msg : string) : string :=
  json.document (json.Map [("error", json.Str msg)]).

(** The text [{"error":"..."}] with [escaped] between the quotes of the
    value, and the newline after it, byte by byte. *)
Definition errorObject (escaped : string) : string :=
  "{" ++ String "034" "error" ++ String "034" ":"
      ++ String "034" escaped ++ String "034" "}" ++ String "010" EmptyString.

(** Every byte of the string is below 0x80. *)
Fixpoint isASCII (s : string) : bool :=
  match s with
  | EmptyString => true
  | String c rest => (N_of_ascii c <? 128)%N && isASCII rest
  end.

(** The response of a handler that wrote nothing. *)
Definition emptyOK : http.Response :=
  {| http.StatusCode := 200; http.Headers := []; http.Body := EmptyString |}.


(** The variables of a request, as the handlers read them. *)
Definition var (r : http.Request) (key : string) : string :=
  mux.index (mux.Vars r) key.

(** The comments the two handlers build. *)
Definition commitComment (user : option github.User) (commit : string)
  : github.RepositoryComment :=
  {| github.rc_ID := None;
     github.rc_CommitID := Some commit;
     github.rc_User := user;
     github.rc_Body := Some commitMessage;
     github.rc_Path := None;
     github.rc_Position := Some 1 |}.

Definition pullComment (user : option github.User) (commit path : string)
    (position : Z) : github.PullRequestComment :=
  {| github.pc_ID := None;
     github.pc_Body := Some pullMessage;
     github.pc_User := user;
     github.pc_Path := Some path;
     github.pc_Position := Some position;
     github.pc_CommitID := Some commit |}.

(** The paths of the three routes, from their segments. *)
Definition countPath (owner : string) : string :=
  "/" ++ owner ++ "/repos/count".

Definition commitPath (owner repo commit : string) : string :=
  "/" ++ owner ++ "/repos/" ++ repo ++ "/" ++ commit ++ "/comment".

Definition pullPath (owner number commit path position : string) : string :=
  "/" ++ owner ++ "/pulls/" ++ number ++ "/" ++ commit ++ "/" ++ path
      ++ "/" ++ position ++ "/comment".

Fixpoint all_in (k : mux.class) (s : string) : bool :=
  match s with
  | EmptyString => true
  | String c rest => mux.in_class k c && all_in k rest
  end.

(** A value a variable of class [k] can take: not empty, every byte in
    the class. *)
Definition value_of (k : mux.class) (s : string) : bool :=
  match s with
  | EmptyString => false
  | _ => all_in k s
  end.

(** The string begins with a minus sign. *)
Definition negative (s : string) : bool :=
  match s with
  | String c _ => Ascii.eqb c "-"
  | EmptyString => false
  end.

(** The string holds a byte that is no decimal digit. *)
Definition hasNonDigit (s : string) : bool := negb (all_in mux.Digits s).

(** An element of a path that [path.Clean] leaves in place: not empty,
    without a slash, and neither [.] nor [..]. *)
Definition kept (s : string) : bool :=
  value_of mux.NotSlash s && negb (String.eqb s ".") && negb (String.eqb s "..").

(** The request path is in the router's canonical form. *)
Definition canonical (p : string) : bool := String.eqb (mux.cleanPath p) p.

(** Where the run of a variable of class [k] has to stop: at the end, or
    before a byte outside the class. *)
Definition stops (k : mux.class) (s : string) : bool :=
  match s with
  | EmptyString => true
  | String c _ => negb (mux.in_class k c)
  end.

(** What a successful match says of the path: it is the template with
    the value of each variable in its place ([expand]), and each value is
    one of the class of its variable ([binds]). *)
Fixpoint expand (items : list mux.item) (vs : mux.RouteVars) : string :=
  match items with
  | [] => EmptyString
  | mux.Lit l :: rest => l ++ expand rest vs
  | mux.Var _ _ :: rest =>
      match vs with
      | (_, v) :: vs' => v ++ expand rest vs'
      | [] => EmptyString
      end
  end.

Fixpoint binds (items : list mux.item) (vs : mux.RouteVars) : bool :=
  match items, vs with
  | [], [] => true
  | mux.Lit _ :: rest, _ => binds rest vs
  | mux.Var name k :: rest, (n, v) :: vs' =>
      String.eqb n name && value_of k v && binds rest vs'
  | _, _ => false
  end.

(** The templates of the three routes, parsed. *)
Definition countItems : list mux.item :=
  [mux.Lit "/"; mux.Var "owner" mux.NotSlash; mux.Lit "/repos/count"].

Definition commitItems : list mux.item :=
  [mux.Lit "/"; mux.Var "owner" mux.NotSlash; mux.Lit "/repos/";
   mux.Var "repo" mux.NotSlash; mux.Lit "/"; mux.Var "commit" mux.NotSlash;
   mux.Lit "/comment"].

Definition pullItems : list mux.item :=
  [mux.Lit "/"; mux.Var "owner" mux.NotSlash;
   mux.Lit "/pulls/"; mux.Var "number" mux.Digits;
   mux.Lit "/"; mux.Var "commit" mux.NotSlash;
   mux.Lit "/"; mux.Var "path" mux.NotSlash;
   mux.Lit "/"; mux.Var "position" mux.Digits;
   mux.Lit "/comment"].

(** A remote API for the examples: [n] repositories on the first page
    (or [listErr]), the user of the login asked for (or [userErr]), and
    comment creation answering [createErr]. *)
Definition sampleAPI (n : nat) (listErr userErr createErr : error) : github.API :=
  {| github.list_repositories := fun _ _ =>
       match listErr with
       | Some _ => ([], listErr)
       | None => (repeat {| github.Name := "repo" |} n, None)
       end;
     github.get_user := fun login =>
       match userErr with
       | Some _ => (None, userErr)
       | None => (Some {| github.Login := login |}, None)
       end;
     github.create_commit_comment := fun _ _ _ c =>
       match createErr with
       | Some _ => (None, createErr)
       | None => (Some c, None)
       end;
     github.create_pull_comment := fun _ _ _ c =>
       match createErr with
       | Some _ => (None, createErr)
       | None => (Some c, None)
       end |}.

(** Requests as the router hands them to the handlers. *)
Definition countRequest : http.Request :=
  {| http.Method := "GET"; http.Path := "/octocat/repos/count";
     http.vars := [("owner", "octocat")] |}.

Definition commentRequest : http.Request :=
  {| http.Method := "POST"; http.Path := "/octocat/repos/myrepo/abc123/comment";
     http.vars := [("owner", "octocat"); ("repo", "myrepo");
                   ("commit", "abc123")] |}.

Definition octocat : option github.User := Some {| github.Login := "octocat" |}.

(** ** The earlier revision of the program

    [part_000] is [main.go] before the comment routes: [New], [GetCount]
    and [WriteError] are the same text, and [NewRouter] has the count
    route alone. *)

Module part_000.

Definition NewRouter (data : datastore) : mux.Router HandlerFunc :=
  [ mux.route "GET" "/{owner}/repos/count" (GetCount data) ].

End part_000.

(** A fresh writer on a connection whose writes fail with [e]. *)
Definition brokenRecorder (e : string) : http.ResponseWriter :=
  {| http.header := []; http.status := None; http.sent := [];
     http.body := EmptyString; http.codes := []; http.broken := Some e |}.

(** The number a decimal numeral denotes, most significant digit first,
    on top of the digits already read. *)
Fixpoint dval (d : Decimal.uint) (acc : Z) : Z :=
  match d with
  | Decimal.Nil => acc
  | Decimal.D0 d => dval d (10 * acc)
  | Decimal.D1 d => dval d (10 * acc + 1)
  | Decimal.D2 d => dval d (10 * acc + 2)
  | Decimal.D3 d => dval d (10 * acc + 3)
  | Decimal.D4 d => dval d (10 * acc + 4)
  | Decimal.D5 d => dval d (10 * acc + 5)
  | Decimal.D6 d => dval d (10 * acc + 6)
  | Decimal.D7 d => dval d (10 * acc + 7)
  | Decimal.D8 d => dval d (10 * acc + 8)
  | Decimal.D9 d => dval d (10 * acc + 9)
  end.

(** How many newlines a string holds. *)
Fixpoint newlines (s : string) : nat :=
  match s with
  | EmptyString => 0
  | String c rest => ((if Ascii.eqb c "010" then 1 else 0) + newlines rest)%nat
  end.

(** The response of the count handler, by the outcome of the listing. *)
Definition countResponse (repos : list github.Repository) (err : error)
  : http.Response :=
  match err with
  | None =>
      {| http.StatusCode := 200;
         http.Headers := [("Content-Type", contentType)];
         http.Body := json.itoa (Z.of_nat (List.length repos)) ++ json.newline |}
  | Some msg =>
      {| http.StatusCode := 500; http.Headers := [];
         http.Body := envelope msg |}
  end.

(** The response of a comment handler, by the outcome of the lookup. *)
Definition commentResponse (err : error) : http.Response :=
  match err with
  | None => emptyOK
  | Some msg =>
      {| http.StatusCode := 500; http.Headers := [];
         http.Body := envelope msg |}
  end.

(** The router answers the request itself, with [code]: no handler runs,
    so no call reaches the remote API and nothing is printed. *)
Definition refused (data : datastore) (a : github.API) (r : http.Request)
    (code : Z) : Prop :=
  exists s,
    serve (ServeHTTP (NewRouter data)) a r = (Some tt, s)
    /\ http.StatusCode (http.finish (w s)) = code
    /\ calls s = [] /\ stdout s = [].

(** The path matcher of the route matches the path. *)
Definition matches (route : mux.Route HandlerFunc) (p : string) : bool :=
  match mux.matchPath route p with Some _ => true | None => false end.

(** * Properties *)

(** ** The libraries, on small inputs *)

Example atoi_42 : strconv.Atoi "42" = (42, None).
Proof. reflexivity. Qed.

Example atoi_neg : strconv.Atoi "-17" = (-17, None).
Proof. reflexivity. Qed.

Example atoi_syntax : strconv.Atoi "4x" = (0, Some strconv.ErrSyntax).
Proof. reflexivity. Qed.

Example atoi_max :
  strconv.Atoi "9223372036854775807" = (9223372036854775807, None).
Proof. vm_compute. reflexivity. Qed.

Example atoi_min :
  strconv.Atoi "-9223372036854775808" = (-9223372036854775808, None).
Proof. vm_compute. reflexivity. Qed.

Example marshal_8 : json.document (json.Int 8) = "8" ++ json.newline.
Proof. reflexivity. Qed.

Example marshal_error :
  json.Marshal (json.Map [("error", json.Str "not found")])
  = "{" ++ json.quote ++ "error" ++ json.quote ++ ":"
        ++ json.quote ++ "not found" ++ json.quote ++ "}".
Proof. reflexivity. Qed.

Example escapes_short :
  json.escapes (String "008" (String "012" (String "010" "<a>")))
  = "\b" ++ "\f" ++ "\n" ++ "\u" ++ "003ca" ++ "\u" ++ "003e".
Proof. reflexivity. Qed.

Example escapes_quote :
  json.escapes (String "034" "\") = String "\" (String "034" "\\").
Proof. reflexivity. Qed.

Example escapes_utf8 :
  json.escapes (String "195" (String "169" "!"))
  = String "195" (String "169" "!").
Proof. reflexivity. Qed.

Example escapes_invalid :
  json.escapes (String "255" (String "195" "a"))
  = "\u" ++ "fffd" ++ "\u" ++ "fffda".
Proof. reflexivity. Qed.

Example escapes_line_separator :
  json.escapes (String "226" (String "128" (String "168" EmptyString)))
  = "\u" ++ "2028".
Proof. reflexivity. Qed.

Example member_read :
  json.member (errorObject ("a\nb" ++ "\u" ++ "003c"))
  = Some ("error", String "a" (String "010" "b<")).
Proof. reflexivity. Qed.

Example clean_double_slash :
  mux.cleanPath "/octocat/repos//count" = "/octocat/repos/count".
Proof. reflexivity. Qed.

Example clean_dot_dot : mux.cleanPath "/octocat/../repos/./count/" = "/repos/count/".
Proof. reflexivity. Qed.

Example clean_root : mux.cleanPath "/.." = "/".
Proof. reflexivity. Qed.

Example escaped_path : url.EscapedPath "/a b/c?d" = "/a%20b/c%3Fd".
Proof. reflexivity. Qed.

Example pull_template :
  mux.newRouteRegexp
    "/{owner}/pulls/{number:[0-9]+}/{commit}/{path}/{position:[0-9]+}/comment"
  = Some [mux.Lit "/"; mux.Var "owner" mux.NotSlash;
          mux.Lit "/pulls/"; mux.Var "number" mux.Digits;
          mux.Lit "/"; mux.Var "commit" mux.NotSlash;
          mux.Lit "/"; mux.Var "path" mux.NotSlash;
          mux.Lit "/"; mux.Var "position" mux.Digits;
          mux.Lit "/comment"].
Proof. reflexivity. Qed.

(** ** The handle *)

Lemma New_handle (authToken : string) :
  New authToken = (Some (handle authToken), None).
Proof. reflexivity. Qed.

(** The handle of a successful [New] is the one written out above. *)
Ltac known_handle H := rewrite New_handle in H; injection H as <-.

(** Runs a handler on the fresh world, as far as the definitions go. *)
Ltac run_handler :=
  unfold serve, GetCount, CommitComment, PullComment, var in *; cbn.

(** C10: for every token, the empty one included, [New] returns a handle
    with a client and a service and no error; neither constructor it
    checks can return nil, so neither error branch is taken, and [main]
    goes on to serve. *)
Theorem New_never_fails (authToken : string) :
  (exists c g,
     New authToken
     = (Some {| Context := context.Background; Client := Some c;
                Service := Some g |}, None))
  /\ (forall ctx src, exists tc, oauth2.NewClient ctx src = Some tc)
  /\ (forall tc, exists c, github.NewClient tc = Some c)
  /\ (exists router, main authToken = ListenAndServe port router).
Proof.
  repeat split.
  - do 2 eexists. reflexivity.
  - intros ctx [src|]; eexists; reflexivity.
  - intros tc; eexists; reflexivity.
  - eexists. reflexivity.
Qed.

(** ** The error envelope *)

Lemma append_assoc (a b c : string) : (a ++ b) ++ c = a ++ (b ++ c).
Proof. induction a as [|x a IH]; cbn; [reflexivity|now rewrite IH]. Qed.

Lemma append_nil_r (a : string) : a ++ EmptyString = a.
Proof. induction a as [|x a IH]; cbn; [reflexivity|now rewrite IH]. Qed.

(** The envelope, as text. *)
Lemma envelope_text (msg : string) :
  envelope msg = errorObject (json.escapes msg).
Proof.
  unfold envelope, errorObject, json.document. cbn [json.Marshal].
  unfold json.string_of, json.quote, json.newline. cbn.
  now rewrite !append_assoc.
Qed.

Lemma unquote_escape (c : ascii) (k : string) :
  (N_of_ascii c <? 128)%N = true ->
  json.unquote (json.escape c ++ k) = json.push c (json.unquote k).
Proof.
  destruct c as [[|] [|] [|] [|] [|] [|] [|] [|]]; intros H;
    try discriminate H; reflexivity.
Qed.

(** What the encoder writes for a string of bytes below 0x80, the
    decoder reads back as that string. *)
Lemma unquote_escapes (s rest : string) :
  isASCII s = true ->
  json.unquote (json.escapes s ++ String "034" rest) = Some (s, rest).
Proof.
  induction s as [|c s IH]; cbn [isASCII json.escapes]; intros H.
  - reflexivity.
  - apply andb_prop in H as [Hc Hs]. rewrite Hc.
    rewrite append_assoc, (unquote_escape c _ Hc), (IH Hs). reflexivity.
Qed.

Lemma member_errorObject (msg : string) :
  isASCII msg = true ->
  json.member (errorObject (json.escapes msg)) = Some ("error", msg).
Proof.
  intros H. unfold errorObject. cbn.
  now rewrite unquote_escapes.
Qed.

(** ** The count handler *)

Lemma itoa_int_of (n : Z) : json.int_of (json.itoa n) = Some n.
Proof.
  unfold json.int_of, json.itoa.
  rewrite NilZero.isi.
  - simpl. now rewrite DecimalZ.of_to.
  - destruct n; simpl; try discriminate.
    intros [= H]. now apply Unsigned.to_uint_nonnil in H.
  - destruct n; simpl; try discriminate.
    intros [= H]. now apply Unsigned.to_uint_nonnil in H.
Qed.

(** C1: when the listing of the owner's repositories succeeds with a
    page of N repositories, the count handler answers 200, content type
    [application/json; charset=utf-8], with the JSON number N as its
    body (the decimal digits of N and the encoder's newline). *)
Theorem GetCount_success (tok : string) (data : datastore) (a : github.API)
    (r : http.Request) (repos : list github.Repository) :
  New tok = (Some data, None) ->
  github.list_repositories a (var r "owner") None = (repos, None) ->
  let N := Z.of_nat (List.length repos) in
  exists s,
    serve (GetCount data) a r = (Some tt, s)
    /\ http.finish (w s)
       = {| http.StatusCode := 200;
            http.Headers := [("Content-Type", contentType)];
            http.Body := json.itoa N ++ json.newline |}
    /\ json.int_of (json.itoa N) = Some N.
Proof.
  intros Hnew Hlist N. known_handle Hnew.
  run_handler. unfold bind; cbn. rewrite Hlist. cbn.
  eexists; split; [reflexivity|]. split; [reflexivity|apply itoa_int_of].
Qed.

(** The scenario of the specification: eight repositories, body [8]. *)
Lemma GetCount_success_witness :
  exists s,
    serve (GetCount (handle "token")) (sampleAPI 8 None None None)
      countRequest = (Some tt, s)
    /\ http.finish (w s)
       = {| http.StatusCode := 200;
            http.Headers := [("Content-Type", contentType)];
            http.Body := "8" ++ json.newline |}
    /\ json.int_of "8" = Some 8.
Proof.
  exact (GetCount_success "token" (handle "token") (sampleAPI 8 None None None)
           countRequest
           (repeat {| github.Name := "repo" |} 8) eq_refl eq_refl).
Defined.

(** C4: when the listing fails, the count handler answers 500 with the
    JSON object [{"error": msg}] and returns at once: the listing is the
    only call made, no content type is set and the body holds that
    object alone, no count.  The body is the text [{"error":"..."}] and
    a newline, with the message escaped between the quotes; for a message
    of bytes below 0x80 the decoder reads the key [error] and the
    message back from it. *)
Theorem GetCount_failure (tok : string) (data : datastore) (a : github.API)
    (r : http.Request) (repos : list github.Repository) (msg : string) :
  New tok = (Some data, None) ->
  github.list_repositories a (var r "owner") None = (repos, Some msg) ->
  exists s,
    serve (GetCount data) a r = (Some tt, s)
    /\ http.finish (w s)
       = {| http.StatusCode := 500; http.Headers := [];
            http.Body := errorObject (json.escapes msg) |}
    /\ (isASCII msg = true ->
        json.member (http.Body (http.finish (w s))) = Some ("error", msg))
    /\ http.header (w s) = []
    /\ http.codes (w s) = [500]
    /\ calls s = [github.ListRepositories (var r "owner") None].
Proof.
  intros Hnew Hlist. known_handle Hnew. rewrite <- envelope_text.
  run_handler. unfold bind; cbn. rewrite Hlist. cbn.
  eexists. split; [reflexivity|]. split; [reflexivity|].
  split; [|repeat split; reflexivity].
  intros H. rewrite <- (member_errorObject msg H), <- envelope_text.
  reflexivity.
Qed.

Lemma GetCount_failure_witness :
  exists s,
    serve (GetCount (handle "token"))
      (sampleAPI 8 (Some "rate limited") None None)
      countRequest = (Some tt, s)
    /\ http.finish (w s)
       = {| http.StatusCode := 500; http.Headers := [];
            http.Body := errorObject "rate limited" |}
    /\ json.member (http.Body (http.finish (w s)))
       = Some ("error", "rate limited")
    /\ http.header (w s) = []
    /\ http.codes (w s) = [500]
    /\ calls s = [github.ListRepositories "octocat" None].
Proof.
  destruct (GetCount_failure "token" (handle "token")
              (sampleAPI 8 (Some "rate limited") None None)
              countRequest [] "rate limited" eq_refl eq_refl)
    as (s & Hrun & Hresp & Hdec & Hrest).
  exists s. split; [exact Hrun|]. split; [exact Hresp|].
  split; [exact (Hdec eq_refl)|exact Hrest].
Defined.

(** ** The comment handlers *)

(** C2: once the user of the owner is resolved, both comment handlers
    leave the writer untouched, so the client gets 200 with an empty
    body; the statement holds for every remote API, whatever its
    comment-creation calls return, and the response is the same
    constant. *)
Theorem comment_creation_not_surfaced (tok : string) (data : datastore)
    (a : github.API) (r : http.Request) (user : option github.User) :
  New tok = (Some data, None) ->
  github.get_user a (var r "owner") = (user, None) ->
  (exists s,
     serve (CommitComment data) a r = (Some tt, s)
     /\ w s = http.NewRecorder /\ http.finish (w s) = emptyOK)
  /\ (exists s,
        serve (PullComment data) a r = (Some tt, s)
        /\ w s = http.NewRecorder /\ http.finish (w s) = emptyOK).
Proof.
  intros Hnew Huser. known_handle Hnew. split.
  - run_handler. unfold bind; cbn. rewrite Huser. cbn.
    eexists; repeat split; reflexivity.
  - run_handler.
    destruct (strconv.Atoi (mux.index (mux.Vars r) "number")) as [number e1].
    destruct (strconv.Atoi (mux.index (mux.Vars r) "position")) as [position e2].
    unfold bind; cbn. rewrite Huser. cbn.
    destruct (github.create_pull_comment a _ _ _ _) as [cmt [e|]]; cbn;
      eexists; repeat split; reflexivity.
Qed.

(** Comment creation failing with ["boom"]: still 200, empty body. *)
Lemma comment_creation_not_surfaced_witness :
  (exists s,
     serve (CommitComment (handle "token")) (sampleAPI 0 None None (Some "boom"))
       commentRequest
     = (Some tt, s)
     /\ w s = http.NewRecorder /\ http.finish (w s) = emptyOK)
  /\ (exists s,
        serve (PullComment (handle "token")) (sampleAPI 0 None None (Some "boom"))
          commentRequest
        = (Some tt, s)
        /\ w s = http.NewRecorder /\ http.finish (w s) = emptyOK).
Proof.
  exact (comment_creation_not_surfaced "token" (handle "token")
           (sampleAPI 0 None None (Some "boom"))
           commentRequest
           octocat eq_refl eq_refl).
Defined.

(** C3: when the user of the owner cannot be resolved, both comment
    handlers answer 500 with the JSON object [{"error": msg}] as body
    (the text [{"error":"..."}] and a newline, the message escaped
    between the quotes; read back by the decoder as the key [error] and
    the message, for a message of bytes below 0x80), and the lookup is
    the only call made to the remote API: no comment is created. *)
Theorem user_resolution_failure (tok : string) (data : datastore)
    (a : github.API) (r : http.Request) (user : option github.User)
    (msg : string) :
  New tok = (Some data, None) ->
  github.get_user a (var r "owner") = (user, Some msg) ->
  (exists s,
     serve (CommitComment data) a r = (Some tt, s)
     /\ http.finish (w s)
        = {| http.StatusCode := 500; http.Headers := [];
             http.Body := errorObject (json.escapes msg) |}
     /\ (isASCII msg = true ->
         json.member (http.Body (http.finish (w s))) = Some ("error", msg))
     /\ calls s = [github.GetUser (var r "owner")]
     /\ existsb github.is_create (calls s) = false)
  /\ (exists s,
        serve (PullComment data) a r = (Some tt, s)
        /\ http.finish (w s)
           = {| http.StatusCode := 500; http.Headers := [];
                http.Body := errorObject (json.escapes msg) |}
        /\ (isASCII msg = true ->
            json.member (http.Body (http.finish (w s))) = Some ("error", msg))
        /\ calls s = [github.GetUser (var r "owner")]
        /\ existsb github.is_create (calls s) = false).
Proof.
  intros Hnew Huser. known_handle Hnew. rewrite <- !envelope_text. split.
  - run_handler. unfold bind; cbn. rewrite Huser. cbn.
    eexists. split; [reflexivity|]. split; [reflexivity|].
    split; [|repeat split; reflexivity].
    intros H. rewrite <- (member_errorObject msg H), <- envelope_text.
    reflexivity.
  - run_handler.
    destruct (strconv.Atoi (mux.index (mux.Vars r) "number")) as [number e1].
    destruct (strconv.Atoi (mux.index (mux.Vars r) "position")) as [position e2].
    unfold bind; cbn. rewrite Huser. cbn.
    eexists. split; [reflexivity|]. split; [reflexivity|].
    split; [|repeat split; reflexivity].
    intros H. rewrite <- (member_errorObject msg H), <- envelope_text.
    reflexivity.
Qed.

(** The scenario of the specification: the lookup of [octocat] fails
    with ["not found"], and the body is [{"error":"not found"}]. *)
Lemma user_resolution_failure_witness :
  (exists s,
     serve (CommitComment (handle "token"))
       (sampleAPI 0 None (Some "not found") None)
       commentRequest
     = (Some tt, s)
     /\ http.finish (w s)
        = {| http.StatusCode := 500; http.Headers := [];
             http.Body := errorObject "not found" |}
     /\ json.member (http.Body (http.finish (w s))) = Some ("error", "not found")
     /\ calls s = [github.GetUser "octocat"]
     /\ existsb github.is_create (calls s) = false)
  /\ (exists s,
        serve (PullComment (handle "token"))
          (sampleAPI 0 None (Some "not found") None)
          commentRequest
        = (Some tt, s)
        /\ http.finish (w s)
           = {| http.StatusCode := 500; http.Headers := [];
                http.Body := errorObject "not found" |}
        /\ json.member (http.Body (http.finish (w s)))
           = Some ("error", "not found")
        /\ calls s = [github.GetUser "octocat"]
        /\ existsb github.is_create (calls s) = false).
Proof.
  destruct (user_resolution_failure "token" (handle "token")
              (sampleAPI 0 None (Some "not found") None)
              commentRequest None "not found" eq_refl eq_refl)
    as [(s1 & Hrun1 & Hresp1 & Hdec1 & Hrest1)
        (s2 & Hrun2 & Hresp2 & Hdec2 & Hrest2)].
  split.
  - exists s1. split; [exact Hrun1|]. split; [exact Hresp1|].
    split; [exact (Hdec1 eq_refl)|exact Hrest1].
  - exists s2. split; [exact Hrun2|]. split; [exact Hresp2|].
    split; [exact (Hdec2 eq_refl)|exact Hrest2].
Defined.

(** C9: with the user resolved, the commit-comment handler submits, for
    [owner/repo] at the commit of the path, a comment made of exactly the
    placeholder message as body, position 1, the resolved user and the
    commit id; its other fields are unset. *)
Theorem CommitComment_submits (tok : string) (data : datastore)
    (a : github.API) (r : http.Request) (user : option github.User) :
  New tok = (Some data, None) ->
  github.get_user a (var r "owner") = (user, None) ->
  exists s,
    serve (CommitComment data) a r = (Some tt, s)
    /\ calls s
       = [github.GetUser (var r "owner");
          github.CreateCommitComment (var r "owner") (var r "repo")
            (var r "commit")
            {| github.rc_ID := None;
               github.rc_CommitID := Some (var r "commit");
               github.rc_User := user;
               github.rc_Body :=
                 Some "Commit message... replace me with message taken from request body.";
               github.rc_Path := None;
               github.rc_Position := Some 1 |}].
Proof.
  intros Hnew Huser. known_handle Hnew.
  run_handler. unfold bind; cbn. rewrite Huser. cbn.
  eexists; split; reflexivity.
Qed.

Lemma CommitComment_submits_witness :
  exists s,
    serve (CommitComment (handle "token")) (sampleAPI 0 None None None)
      commentRequest
    = (Some tt, s)
    /\ calls s
       = [github.GetUser "octocat";
          github.CreateCommitComment "octocat" "myrepo" "abc123"
            (commitComment octocat "abc123")].
Proof.
  exact (CommitComment_submits "token" (handle "token")
           (sampleAPI 0 None None None)
           commentRequest
           octocat eq_refl eq_refl).
Defined.

(** ** The error writer *)











(** ** Route matching *)

(** A run of bytes of the class that stops where the class does is taken
    whole, provided the rest of the expression matches what follows. *)
Lemma matchVar_run (k : mux.class) (name : string)
    (cont : string -> option mux.RouteVars) (v : string) :
  forall (taken rest : string) (vs : mux.RouteVars),
    value_of k v = true -> stops k rest = true -> cont rest = Some vs ->
    mux.matchVar k name cont taken (v ++ rest) = Some ((name, taken ++ v) :: vs).
Proof.
  induction v as [|c v IH]; intros taken rest vs Hv Hstop Hcont; [discriminate|].
  cbn in Hv. apply andb_prop in Hv as [Hc Hv].
  cbn. rewrite Hc.
  destruct v as [|c' v].
  - cbn. replace (mux.matchVar k name cont (taken ++ String c EmptyString) rest)
      with (@None mux.RouteVars).
    + now rewrite Hcont.
    + destruct rest as [|d rest]; cbn; [reflexivity|].
      cbn in Hstop. now destruct (mux.in_class k d).
  - rewrite (IH (taken ++ String c EmptyString) rest vs); auto.
    now rewrite append_assoc.
Qed.

Lemma matchVar_sound (k : mux.class) (name : string)
    (cont : string -> option mux.RouteVars) (s : string) :
  forall (taken : string) (vs : mux.RouteVars),
    mux.matchVar k name cont taken s = Some vs ->
    exists v rest vs',
      s = v ++ rest /\ value_of k v = true /\ cont rest = Some vs'
      /\ vs = (name, taken ++ v) :: vs'.
Proof.
  induction s as [|c s IH]; intros taken vs H; [discriminate|].
  cbn in H. destruct (mux.in_class k c) eqn:Hc; [|discriminate].
  destruct (mux.matchVar k name cont (taken ++ String c EmptyString) s) as [vs1|] eqn:Hrec.
  - injection H as <-.
    destruct (IH _ _ Hrec) as (v & rest & vs' & -> & Hv & Hcont & ->).
    exists (String c v), rest, vs'. repeat split; auto.
    + cbn. rewrite Hc. destruct v; [discriminate|exact Hv].
    + now rewrite append_assoc.
  - destruct (cont s) as [vs'|] eqn:Hcont; [|discriminate].
    injection H as <-.
    exists (String c EmptyString), s, vs'. repeat split; auto.
    cbn. now rewrite Hc.
Qed.

Lemma stripPrefix_sound (p s s' : string) :
  mux.stripPrefix p s = Some s' -> s = p ++ s'.
Proof.
  revert s; induction p as [|a p IH]; intros s H; cbn in H.
  - now injection H as ->.
  - destruct s as [|b s]; [discriminate|].
    destruct (Ascii.eqb_spec a b) as [->|]; [|discriminate].
    cbn. f_equal. now apply IH.
Qed.

(** A match of the matcher is a match of the template. *)
Lemma matchItems_sound (items : list mux.item) :
  forall s vs,
    mux.matchItems items s = Some vs ->
    s = expand items vs /\ binds items vs = true.
Proof.
  induction items as [|[l|name k] items IH]; intros s vs H; cbn in H.
  - destruct s; [|discriminate]. injection H as <-. now split.
  - destruct (mux.stripPrefix l s) as [s'|] eqn:Hp; [|discriminate].
    apply stripPrefix_sound in Hp as ->.
    destruct (IH _ _ H) as [-> Hb]. now split.
  - apply matchVar_sound in H as (v & rest & vs' & -> & Hv & Hcont & ->).
    destruct (IH _ _ Hcont) as [-> Hb]. cbn.
    now rewrite String.eqb_refl, Hv, Hb.
Qed.

Lemma segments_nonempty (s : string) : segments s <> [].
Proof.
  induction s as [|c s IH]; cbn; [discriminate|].
  destruct (Ascii.eqb c "/"); [discriminate|].
  destruct (segments s); discriminate.
Qed.

Lemma segments_app (a b : string) :
  segments (a ++ String "/" b) = (segments a ++ segments b)%list.
Proof.
  induction a as [|c a IH]; cbn; [reflexivity|].
  destruct (Ascii.eqb c "/"); rewrite IH; [reflexivity|].
  destruct (segments a) eqn:Ha; [|reflexivity].
  now apply segments_nonempty in Ha.
Qed.

Lemma segments_join (x : string) (l : list string) :
  segments (join (x :: l)) = flat_map segments (x :: l).
Proof.
  revert x; induction l as [|y l IH]; intros x.
  - cbn. now rewrite app_nil_r.
  - change (join (x :: y :: l)) with (x ++ String "/" (join (y :: l))).
    rewrite segments_app, IH. reflexivity.
Qed.

Lemma segments_value (v : string) :
  all_in mux.NotSlash v = true -> segments v = [v].
Proof.
  induction v as [|c v IH]; cbn; [reflexivity|].
  intros H. apply andb_prop in H as [Hc Hv].
  apply negb_true_iff in Hc. rewrite Hc, (IH Hv). reflexivity.
Qed.

Lemma segments_single (s : string) :
  List.length (segments s) = 1%nat -> segments s = [s].
Proof.
  induction s as [|c s IH]; cbn; [reflexivity|].
  destruct (Ascii.eqb c "/").
  - cbn. destruct (segments s) eqn:Hs; [now apply segments_nonempty in Hs|discriminate].
  - destruct (segments s) as [|h t] eqn:Hs; [now apply segments_nonempty in Hs|].
    cbn. intros [= Ht]. destruct t; [|discriminate].
    specialize (IH eq_refl). now injection IH as ->.
Qed.

Lemma segments_length (s : string) : (1 <= List.length (segments s))%nat.
Proof.
  destruct (segments s) eqn:Hs; [now apply segments_nonempty in Hs|cbn; lia].
Qed.

Lemma digits_not_slash (v : string) :
  all_in mux.Digits v = true -> all_in mux.NotSlash v = true.
Proof.
  induction v as [|c v IH]; cbn; [reflexivity|].
  intros H. apply andb_prop in H as [Hc Hv]. rewrite (IH Hv), andb_true_r.
  destruct (Ascii.eqb_spec c "/") as [->|]; [discriminate|reflexivity].
Qed.

Lemma value_not_slash (k : mux.class) (v : string) :
  value_of k v = true -> all_in mux.NotSlash v = true.
Proof.
  intros H. assert (Ha : all_in k v = true) by (destruct v; [discriminate|exact H]).
  destruct k; [exact Ha|now apply digits_not_slash].
Qed.

Lemma value_segments (k : mux.class) (v : string) :
  value_of k v = true -> segments v = [v].
Proof. intros H. apply segments_value. eapply value_not_slash, H. Qed.

Lemma pullPath_join (o n c p pos : string) :
  pullPath o n c p pos = join [EmptyString; o; "pulls"; n; c; p; pos; "comment"].
Proof. reflexivity. Qed.

Lemma pullPath_segments (o n c p pos : string) :
  segments (pullPath o n c p pos)
  = (EmptyString :: segments o ++ "pulls" :: segments n ++ segments c
       ++ segments p ++ segments pos ++ ["comment"])%list.
Proof.
  rewrite pullPath_join, segments_join. reflexivity.
Qed.

Lemma flat_map_values (l : list string) :
  forallb (all_in mux.NotSlash) l = true -> flat_map segments l = l.
Proof.
  induction l as [|x l IH]; cbn; [reflexivity|].
  intros H. apply andb_prop in H as [Hx Hl].
  now rewrite (segments_value x Hx), (IH Hl).
Qed.

(** From a match of a closed template: the variables, one by one, the
    class of each value, and the equation on the path. *)
Ltac split_vars Hb :=
  cbn in Hb; rewrite ?andb_false_r in Hb;
  first
    [ discriminate Hb
    | lazymatch type of Hb with
      | context [match ?vs with [] => _ | _ :: _ => _ end] =>
          is_var vs; destruct vs as [|[? ?] ?]; split_vars Hb
      | _ => idtac
      end ].

Ltac split_andb :=
  repeat match goal with
         | H : (_ && _) = true |- _ => apply andb_prop in H as [? ?]
         end.

Ltac open_match H :=
  apply matchItems_sound in H; destruct H as [Hpath Hbinds];
  split_vars Hbinds; split_andb.

(** The segments of both sides of the equation of a match on a pull
    path; the values of the template's side are segments themselves. *)
Ltac segments_of Hpath l :=
  apply (f_equal segments) in Hpath; rewrite pullPath_segments in Hpath;
  lazymatch type of Hpath with
  | _ = segments ?e => change e with (join l) in Hpath
  end;
  rewrite segments_join, flat_map_values in Hpath
    by (cbn;
        repeat match goal with
               | Hv : value_of _ ?v = true |- context [all_in mux.NotSlash ?v] =>
                   rewrite (value_not_slash _ _ Hv)
               end; reflexivity).

Ltac segment_lengths Hpath Hlen o n c p pos :=
  pose proof (f_equal (@List.length string) Hpath) as Hlen;
  cbn in Hlen; rewrite ?length_app in Hlen; cbn in Hlen;
  rewrite ?length_app in Hlen; cbn in Hlen;
  pose proof (segments_length o); pose proof (segments_length n);
  pose proof (segments_length c); pose proof (segments_length p);
  pose proof (segments_length pos).

Lemma count_route_no_pull (o n c p pos : string) :
  mux.matchItems countItems (pullPath o n c p pos) = None.
Proof.
  destruct (mux.matchItems _ _) as [vs|] eqn:H; [|reflexivity].
  open_match H.
  match type of Hpath with
  | _ = expand _ [(_, ?v0)] =>
      segments_of Hpath [EmptyString; v0; "repos"; "count"]
  end.
  segment_lengths Hpath Hlen o n c p pos. lia.
Qed.

Lemma commit_route_no_pull (o n c p pos : string) :
  mux.matchItems commitItems (pullPath o n c p pos) = None.
Proof.
  destruct (mux.matchItems _ _) as [vs|] eqn:H; [|reflexivity].
  open_match H.
  match type of Hpath with
  | _ = expand _ [(_, ?v0); (_, ?v1); (_, ?v2)] =>
      segments_of Hpath [EmptyString; v0; "repos"; v1; v2; "comment"]
  end.
  segment_lengths Hpath Hlen o n c p pos. lia.
Qed.

(** A pull path the pull route matches has five segments of its own, and
    those of the number and of the position are digits. *)
Lemma pull_route_numeric (o n c p pos : string) (vs : mux.RouteVars) :
  mux.matchItems pullItems (pullPath o n c p pos) = Some vs ->
  value_of mux.Digits n = true /\ value_of mux.Digits pos = true.
Proof.
  intros H. open_match H.
  match type of Hpath with
  | _ = expand _ [(_, ?v0); (_, ?v1); (_, ?v2); (_, ?v3); (_, ?v4)] =>
      segments_of Hpath [EmptyString; v0; "pulls"; v1; v2; v3; v4; "comment"]
  end.
  segment_lengths Hpath Hlen o n c p pos.
  rewrite (segments_single o), (segments_single n), (segments_single c),
    (segments_single p), (segments_single pos) in Hpath by lia.
  cbn in Hpath. injection Hpath as -> -> -> -> ->. now split.
Qed.

Lemma hasNonDigit_value (s : string) :
  hasNonDigit s = true -> value_of mux.Digits s = false.
Proof.
  unfold hasNonDigit. intros H. apply negb_true_iff in H.
  destruct s; [reflexivity|exact H].
Qed.

Lemma Match_skip {H : Type} (r0 : mux.Route H) (rest : mux.Router H)
    (req : http.Request) :
  mux.matchPath r0 (http.Path req) = None ->
  mux.Match (r0 :: rest) req false = mux.Match rest req false.
Proof.
  intros E. cbn. rewrite E.
  now destruct (existsb _ _).
Qed.

Lemma Match_here {H : Type} (r0 : mux.Route H) (rest : mux.Router H)
    (req : http.Request) (mismatch : bool) (vs : mux.RouteVars) :
  mux.matchPath r0 (http.Path req) = Some vs ->
  existsb (String.eqb (http.Method req)) (mux.methods r0) = true ->
  mux.Match (r0 :: rest) req mismatch = mux.Matched (mux.handler r0) vs.
Proof. intros E Hm. cbn. now rewrite E, Hm. Qed.

(** ** Canonical paths *)

Lemma kept_value (s : string) : kept s = true -> value_of mux.NotSlash s = true.
Proof.
  unfold kept. intros H. apply andb_prop in H as [H _].
  now apply andb_prop in H as [H _].
Qed.

Lemma digits_kept (s : string) : value_of mux.Digits s = true -> kept s = true.
Proof.
  intros H. unfold kept.
  destruct s as [|c s]; [discriminate|].
  assert (Hv : value_of mux.NotSlash (String c s) = true)
    by exact (value_not_slash mux.Digits _ H).
  rewrite Hv.
  cbn in H. apply andb_prop in H as [Hc _].
  destruct (Ascii.eqb_spec c ".") as [->|Hne]; [discriminate|].
  cbn [String.eqb andb].
  destruct (Ascii.eqb_spec c ".") as [|_]; [contradiction|reflexivity].
Qed.

Lemma cleanElements_kept (l : list string) :
  forallb kept l = true ->
  forall k, path.cleanElements k l = (rev k ++ l)%list.
Proof.
  induction l as [|e l IH]; cbn [forallb path.cleanElements]; intros H k.
  - now rewrite app_nil_r.
  - apply andb_prop in H as [He Hl].
    unfold kept in He. apply andb_prop in He as [He Hdd].
    apply andb_prop in He as [Hv Hd].
    apply negb_true_iff in Hd, Hdd. rewrite Hd, Hdd.
    destruct e as [|c e]; [discriminate|]. cbn [String.eqb orb].
    rewrite (IH Hl). cbn [rev]. now rewrite <- app_assoc.
Qed.

Lemma endsWithSlash_not_slash (x : string) :
  all_in mux.NotSlash x = true -> mux.endsWithSlash x = false.
Proof.
  induction x as [|c x IH]; [reflexivity|].
  cbn [all_in]. intros H. apply andb_prop in H as [Hc Hx].
  cbn in Hc. apply negb_true_iff in Hc.
  destruct x as [|d x]; [exact Hc|]. exact (IH Hx).
Qed.

Lemma endsWithSlash_app (a : string) (c : ascii) (s : string) :
  mux.endsWithSlash (a ++ String c s) = mux.endsWithSlash (String c s).
Proof.
  induction a as [|x a IH]; [reflexivity|].
  cbn [append]. rewrite <- IH.
  destruct (a ++ String c s) eqn:E; [destruct a; discriminate|reflexivity].
Qed.

Lemma endsWithSlash_join (x : string) (l : list string) :
  forallb kept (x :: l) = true -> mux.endsWithSlash (join (x :: l)) = false.
Proof.
  revert x; induction l as [|y l IH]; intros x H;
    cbn [forallb] in H; apply andb_prop in H as [Hx Hl].
  - cbn. apply endsWithSlash_not_slash.
    apply (value_not_slash mux.NotSlash), kept_value, Hx.
  - change (join (x :: y :: l)) with (x ++ String "/" (join (y :: l))).
    rewrite endsWithSlash_app.
    specialize (IH y Hl).
    destruct (join (y :: l)) as [|d s] eqn:E.
    + exfalso. cbn [forallb] in Hl. apply andb_prop in Hl as [Hy _].
      apply kept_value in Hy. destruct y; [discriminate|].
      destruct l; cbn in E; discriminate.
    + exact IH.
Qed.

Lemma kept_not_slash (l : list string) :
  forallb kept l = true -> forallb (all_in mux.NotSlash) l = true.
Proof.
  induction l as [|e m IH]; [reflexivity|].
  cbn [forallb]. intros H. apply andb_prop in H as [He Hm].
  rewrite (IH Hm), andb_true_r.
  apply (value_not_slash mux.NotSlash), kept_value, He.
Qed.

(** A rooted path whose elements are all kept by [path.Clean] is in
    canonical form. *)
Lemma cleanPath_join (x : string) (l : list string) :
  forallb kept (x :: l) = true ->
  mux.cleanPath (join (EmptyString :: x :: l)) = join (EmptyString :: x :: l).
Proof.
  intros H.
  change (join (EmptyString :: x :: l)) with (String "/" (join (x :: l))).
  unfold mux.cleanPath. cbn [Ascii.eqb Bool.eqb].
  assert (Hseg : segments (String "/" (join (x :: l))) = EmptyString :: x :: l).
  { change (String "/" (join (x :: l))) with (join (EmptyString :: x :: l)).
    rewrite segments_join. apply flat_map_values.
    cbn [forallb all_in andb]. exact (kept_not_slash _ H). }
  unfold path.Clean. rewrite Hseg.
  change (path.cleanElements [] (EmptyString :: x :: l))
    with (path.cleanElements [] (x :: l)).
  rewrite (cleanElements_kept _ H). cbn [rev app].
  assert (He : mux.endsWithSlash (String "/" (join (x :: l))) = false).
  { pose proof (endsWithSlash_join x l H) as E.
    destruct (join (x :: l)) as [|d s] eqn:Ej; [|exact E].
    exfalso. cbn [forallb] in H. apply andb_prop in H as [Hx _].
    apply kept_value in Hx. destruct x; [discriminate|].
    destruct l; cbn in Ej; discriminate. }
  rewrite He. reflexivity.
Qed.

Lemma canonical_join (x : string) (l : list string) :
  forallb kept (x :: l) = true ->
  canonical (join (EmptyString :: x :: l)) = true.
Proof.
  intros H. unfold canonical. rewrite (cleanPath_join x l H).
  apply String.eqb_refl.
Qed.

Lemma canonical_countPath (o : string) :
  kept o = true -> canonical (countPath o) = true.
Proof.
  intros Ho.
  change (countPath o) with (join [EmptyString; o; "repos"; "count"]).
  apply canonical_join. cbn [forallb]. rewrite Ho. reflexivity.
Qed.

Lemma canonical_commitPath (o rp c : string) :
  kept o = true -> kept rp = true -> kept c = true ->
  canonical (commitPath o rp c) = true.
Proof.
  intros Ho Hr Hc.
  change (commitPath o rp c)
    with (join [EmptyString; o; "repos"; rp; c; "comment"]).
  apply canonical_join. cbn [forallb]. rewrite Ho, Hr, Hc. reflexivity.
Qed.

Lemma canonical_pullPath (o n c f pos : string) :
  kept o = true -> value_of mux.Digits n = true -> kept c = true ->
  kept f = true -> value_of mux.Digits pos = true ->
  canonical (pullPath o n c f pos) = true.
Proof.
  intros Ho Hn Hc Hf Hp. rewrite pullPath_join. apply canonical_join.
  cbn [forallb]. rewrite Ho, (digits_kept n Hn), Hc, Hf, (digits_kept pos Hp).
  reflexivity.
Qed.

Lemma ServeHTTP_canonical (router : mux.Router HandlerFunc) (r : http.Request) :
  canonical (http.Path r) = true ->
  ServeHTTP router r
  = match mux.Match router r false with
    | mux.Matched h vs =>
        h {| http.Method := http.Method r; http.Path := http.Path r;
             http.vars := vs |}
    | mux.NoMatch mux.ErrMethodMismatch =>
        onWriter (fun w => (http.WriteHeader w http.StatusMethodNotAllowed, tt))
    | mux.NoMatch mux.ErrNotFound =>
        onWriter (fun w => (http.NotFound w, tt))
    end.
Proof.
  unfold canonical, ServeHTTP. cbv zeta. intros ->. reflexivity.
Qed.

Lemma ServeHTTP_redirect (router : mux.Router HandlerFunc) (r : http.Request) :
  canonical (http.Path r) = false ->
  ServeHTTP router r
  = onWriter (fun w =>
      (http.WriteHeader
         (http.SetHeader w "Location"
            (url.EscapedPath (mux.cleanPath (http.Path r))))
         http.StatusMovedPermanently, tt)).
Proof.
  unfold canonical, ServeHTTP. cbv zeta. intros ->. reflexivity.
Qed.

(** C6: a request on a pull-comment path whose number or position holds a
    byte that is no digit matches none of the three routes, under any
    method, and no handler runs (no remote call, nothing printed).  The
    answer is the router's 404 when the path is in canonical form, as it
    is when each of the five values is an element that [path.Clean]
    keeps; a path that is not in canonical form is answered by the
    redirect to that form, status 301. *)
Theorem non_numeric_not_routed (data : datastore) (method : string)
    (owner number commit path position : string) :
  hasNonDigit number = true \/ hasNonDigit position = true ->
  let r := request method (pullPath owner number commit path position) in
  mux.Match (NewRouter data) r false = mux.NoMatch mux.ErrNotFound
  /\ (forall a,
       exists s,
         serve (ServeHTTP (NewRouter data)) a r = (Some tt, s)
         /\ http.finish (w s)
            = (if canonical (http.Path r) then
                 {| http.StatusCode := 404;
                    http.Headers := [("Content-Type", "text/plain; charset=utf-8");
                                     ("X-Content-Type-Options", "nosniff")];
                    http.Body := "404 page not found" ++ json.newline |}
               else
                 {| http.StatusCode := 301;
                    http.Headers :=
                      [("Location",
                        url.EscapedPath (mux.cleanPath (http.Path r)))];
                    http.Body := EmptyString |})
         /\ calls s = [] /\ stdout s = [])
  /\ (forallb kept [owner; number; commit; path; position] = true ->
      canonical (http.Path r) = true).
Proof.
  intros Hbad r.
  assert (Hm : mux.Match (NewRouter data) r false = mux.NoMatch mux.ErrNotFound).
  { unfold NewRouter.
    rewrite Match_skip
      by (change (mux.matchItems countItems
                    (pullPath owner number commit path position) = None);
          apply count_route_no_pull).
    rewrite Match_skip
      by (change (mux.matchItems commitItems
                    (pullPath owner number commit path position) = None);
          apply commit_route_no_pull).
    rewrite Match_skip; [reflexivity|].
    change (mux.matchItems pullItems
              (pullPath owner number commit path position) = None).
    destruct (mux.matchItems pullItems _) as [vs|] eqn:H; [|reflexivity].
    apply pull_route_numeric in H as [Hn Hp].
    destruct Hbad as [Hbad|Hbad]; apply hasNonDigit_value in Hbad; congruence. }
  split; [exact Hm|]. split.
  - intros a. unfold serve.
    destruct (canonical (http.Path r)) eqn:Hc.
    + rewrite (ServeHTTP_canonical _ _ Hc), Hm. cbn.
      eexists; repeat split; reflexivity.
    + rewrite (ServeHTTP_redirect _ _ Hc).
      eexists; repeat split; reflexivity.
  - intros Hk. unfold canonical.
    change (http.Path r) with (pullPath owner number commit path position).
    rewrite pullPath_join, cleanPath_join; [apply String.eqb_refl|].
    cbn [forallb] in Hk |- *.
    apply andb_prop in Hk as [Ho Hk]. apply andb_prop in Hk as [Hn Hk].
    apply andb_prop in Hk as [Hc Hk]. apply andb_prop in Hk as [Hf Hk].
    apply andb_prop in Hk as [Hp _].
    rewrite Ho, Hn, Hc, Hf, Hp. reflexivity.
Qed.

Lemma non_numeric_not_routed_witness :
  mux.Match (NewRouter (handle "token"))
    (request "POST" "/octocat/pulls/4x/abc123/main.go/5/comment") false
  = mux.NoMatch mux.ErrNotFound
  /\ (forall a,
       exists s,
         serve (ServeHTTP (NewRouter (handle "token"))) a
           (request "POST" "/octocat/pulls/4x/abc123/main.go/5/comment")
         = (Some tt, s)
         /\ http.finish (w s)
            = {| http.StatusCode := 404;
                 http.Headers := [("Content-Type", "text/plain; charset=utf-8");
                                  ("X-Content-Type-Options", "nosniff")];
                 http.Body := "404 page not found" ++ json.newline |}
         /\ calls s = [] /\ stdout s = [])
  /\ (forallb kept ["octocat"; "4x"; "abc123"; "main.go"; "5"] = true ->
      canonical "/octocat/pulls/4x/abc123/main.go/5/comment" = true).
Proof.
  exact (non_numeric_not_routed (handle "token") "POST"
           "octocat" "4x" "abc123" "main.go" "5" (or_introl eq_refl)).
Defined.

(** The spec's sentence gives every such request the not-found response.
    A number that is [..] holds no digit, and the request is answered by
    the redirect to the cleaned path instead: status 301, no 404. *)
Lemma dot_dot_number_redirected :
  hasNonDigit ".." = true
  /\ pullPath "octocat" ".." "abc123" "main.go" "5"
     = "/octocat/pulls/../abc123/main.go/5/comment"
  /\ forall a,
       exists s,
         serve (ServeHTTP (NewRouter (handle "token"))) a
           (request "POST" "/octocat/pulls/../abc123/main.go/5/comment")
         = (Some tt, s)
         /\ http.finish (w s)
            = {| http.StatusCode := 301;
                 http.Headers :=
                   [("Location", "/octocat/abc123/main.go/5/comment")];
                 http.Body := EmptyString |}
         /\ http.StatusCode (http.finish (w s)) <> 404.
Proof.
  split; [reflexivity|]. split; [reflexivity|].
  intros a. eexists. split; [reflexivity|]. split; [reflexivity|].
  cbn. discriminate.
Qed.

(** A pull path made of values of the five variables is matched by the
    pull route, with these values. *)
Lemma pull_route_matches (o n c p pos : string) :
  value_of mux.NotSlash o = true -> value_of mux.Digits n = true ->
  value_of mux.NotSlash c = true -> value_of mux.NotSlash p = true ->
  value_of mux.Digits pos = true ->
  mux.matchItems pullItems (pullPath o n c p pos)
  = Some [("owner", o); ("number", n); ("commit", c); ("path", p);
          ("position", pos)].
Proof.
  intros Ho Hn Hc Hp Hpos.
  unfold pullItems, pullPath. cbn.
  repeat (erewrite matchVar_run; [| eassumption | reflexivity | cbn ]).
  all: reflexivity.
Qed.

Lemma Match_pull (data : datastore) (o n c p pos : string) :
  value_of mux.NotSlash o = true -> value_of mux.Digits n = true ->
  value_of mux.NotSlash c = true -> value_of mux.NotSlash p = true ->
  value_of mux.Digits pos = true ->
  mux.Match (NewRouter data) (request "POST" (pullPath o n c p pos)) false
  = mux.Matched (PullComment data)
      [("owner", o); ("number", n); ("commit", c); ("path", p);
       ("position", pos)].
Proof.
  intros Ho Hn Hc Hp Hpos. unfold NewRouter.
  rewrite Match_skip
    by (change (mux.matchItems countItems (pullPath o n c p pos) = None);
        apply count_route_no_pull).
  rewrite Match_skip
    by (change (mux.matchItems commitItems (pullPath o n c p pos) = None);
        apply commit_route_no_pull).
  apply Match_here; [|reflexivity].
  change (mux.matchItems pullItems (pullPath o n c p pos)
          = Some [("owner", o); ("number", n); ("commit", c); ("path", p);
                  ("position", pos)]).
  now apply pull_route_matches.
Qed.

(** The pull-comment handler, once the user is resolved: it goes on with
    whatever [Atoi] returned for the number and the position. *)
Lemma PullComment_proceeds (tok : string) (a : github.API) (r : http.Request)
    (user : option github.User) :
  github.get_user a (var r "owner") = (user, None) ->
  exists s,
    serve (PullComment (handle tok)) a r = (Some tt, s)
    /\ http.finish (w s) = emptyOK
    /\ calls s
       = [github.GetUser (var r "owner");
          github.CreatePullComment (var r "owner") (var r "repo")
            (fst (strconv.Atoi (var r "number")))
            (pullComment user (var r "commit") (var r "path")
               (fst (strconv.Atoi (var r "position"))))].
Proof.
  intros Huser. run_handler.
  destruct (strconv.Atoi (mux.index (mux.Vars r) "number")) as [number e1].
  destruct (strconv.Atoi (mux.index (mux.Vars r) "position")) as [position e2].
  unfold bind; cbn. rewrite Huser. cbn.
  destruct (github.create_pull_comment a _ _ _ _) as [cmt [e|]]; cbn;
    eexists; repeat split; reflexivity.
Qed.

(** ** The numeric path parameters *)

Lemma digit_not_sign (c : ascii) :
  strconv.is_digit c = true -> Ascii.eqb c "-" = false /\ Ascii.eqb c "+" = false.
Proof.
  intros H. split.
  - destruct (Ascii.eqb_spec c "-") as [->|]; [discriminate|reflexivity].
  - destruct (Ascii.eqb_spec c "+") as [->|]; [discriminate|reflexivity].
Qed.

Lemma atoiLoop_digits (s : string) :
  all_in mux.Digits s = true -> forall n, exists m, strconv.atoiLoop n s = Some m.
Proof.
  induction s as [|c s IH]; cbn; intros H n; [now exists n|].
  apply andb_prop in H as [Hc Hs]. rewrite Hc. cbn. now apply IH.
Qed.

Lemma parseUintLoop_syntax (maxVal : Z) (s : string) :
  forall n v,
    strconv.parseUintLoop maxVal n s = (v, Some strconv.ErrSyntax) -> v = 0.
Proof.
  induction s as [|c s IH]; cbn; intros n v H; [discriminate|].
  destruct (strconv.is_digit c); cbn in H; [|congruence].
  destruct (_ <=? n); [discriminate|].
  destruct (_ || _); [discriminate|]. eapply IH, H.
Qed.

Lemma parseUintLoop_digits (maxVal : Z) (s : string) :
  all_in mux.Digits s = true ->
  forall n v, strconv.parseUintLoop maxVal n s <> (v, Some strconv.ErrSyntax).
Proof.
  induction s as [|c s IH]; cbn; intros H n v; [discriminate|].
  apply andb_prop in H as [Hc Hs]. rewrite Hc. cbn.
  destruct (_ <=? n); [discriminate|].
  destruct (_ || _); [discriminate|]. now apply IH.
Qed.

Lemma ParseUint_syntax (s : string) (v : Z) :
  strconv.ParseUint s = (v, Some strconv.ErrSyntax) -> v = 0.
Proof.
  destruct s; cbn -[strconv.parseUintLoop]; [congruence|].
  apply parseUintLoop_syntax.
Qed.

(** The results of [ParseInt]: zero with a syntax error, the largest
    magnitude of the sign with a range error. *)
Lemma ParseInt_error (s : string) (v : Z) (e : strconv.NumError) :
  strconv.ParseInt s = (v, Some e) ->
  match e with
  | strconv.ErrSyntax => v = 0
  | strconv.ErrRange =>
      v = if negative s then -9223372036854775808 else 9223372036854775807
  end.
Proof.
  unfold strconv.ParseInt. destruct s as [|c s]; [now intros [= <- <-]|].
  cbn [negative].
  destruct (strconv.ParseUint _) as [un [[|]|]]; cbv zeta.
  - now intros [= <- <-].
  - destruct (Ascii.eqb c "-"); cbn [negb andb].
    + destruct (_ <? un); [now intros [= <- <-]|discriminate].
    + destruct (_ <=? un); [now intros [= <- <-]|discriminate].
  - destruct (Ascii.eqb c "-"); cbn [negb andb].
    + destruct (_ <? un); [now intros [= <- <-]|discriminate].
    + destruct (_ <=? un); [now intros [= <- <-]|discriminate].
Qed.

Lemma Atoi_error (s : string) (v : Z) (e : strconv.NumError) :
  strconv.Atoi s = (v, Some e) ->
  match e with
  | strconv.ErrSyntax => v = 0
  | strconv.ErrRange =>
      v = if negative s then -9223372036854775808 else 9223372036854775807
  end.
Proof.
  unfold strconv.Atoi. destruct (_ && _); [|apply ParseInt_error].
  destruct s as [|c s]; [now intros [= <- <-]|]. cbv zeta.
  destruct (_ && _); [now intros [= <- <-]|].
  destruct (strconv.atoiLoop _ _); [discriminate|now intros [= <- <-]].
Qed.

(** On a string of digits, the only error is the range error, with the
    largest [int]. *)
Lemma Atoi_digits_error (s : string) (v : Z) (e : strconv.NumError) :
  value_of mux.Digits s = true ->
  strconv.Atoi s = (v, Some e) ->
  e = strconv.ErrRange /\ v = 9223372036854775807.
Proof.
  intros Hs. destruct s as [|c s]; [discriminate|].
  assert (Hall : all_in mux.Digits (String c s) = true) by exact Hs.
  cbn in Hs. apply andb_prop in Hs as [Hc _].
  destruct (digit_not_sign c Hc) as [Hminus Hplus].
  unfold strconv.Atoi. destruct (_ && _).
  - rewrite Hminus, Hplus. cbn [orb andb].
    destruct (atoiLoop_digits _ Hall 0) as [m ->]. discriminate.
  - unfold strconv.ParseInt. rewrite Hminus, Hplus. cbn [orb andb negb].
    destruct (strconv.ParseUint _) as [un err] eqn:Hu.
    destruct err as [[|]|].
    + exfalso. cbn -[strconv.parseUintLoop] in Hu.
      now apply parseUintLoop_digits in Hu.
    + destruct (_ <=? un); [now intros [= <- <-]|discriminate].
    + destruct (_ <=? un); [now intros [= <- <-]|discriminate].
Qed.

(** C7, as the code has it: the error of [Atoi] is dropped and the
    handler goes on with the value returned, for the number and for the
    position.  That value is zero when the error is a syntax error; when
    it is a range error, it is the smallest [int] for a string that
    begins with a minus sign and the largest [int] for any other; on the
    digit strings the route lets through, an error is always a range
    error and the value 9223372036854775807. *)
Theorem Atoi_errors_dropped :
  (forall s v e,
     strconv.Atoi s = (v, Some e) ->
     match e with
     | strconv.ErrSyntax => v = 0
     | strconv.ErrRange =>
         v = if negative s then -9223372036854775808 else 9223372036854775807
     end)
  /\ (forall s v e,
        value_of mux.Digits s = true ->
        strconv.Atoi s = (v, Some e) ->
        e = strconv.ErrRange /\ v = 9223372036854775807)
  /\ (forall tok data a r user,
        New tok = (Some data, None) ->
        github.get_user a (var r "owner") = (user, None) ->
        exists s,
          serve (PullComment data) a r = (Some tt, s)
          /\ http.finish (w s) = emptyOK
          /\ calls s
             = [github.GetUser (var r "owner");
                github.CreatePullComment (var r "owner") (var r "repo")
                  (fst (strconv.Atoi (var r "number")))
                  (pullComment user (var r "commit") (var r "path")
                     (fst (strconv.Atoi (var r "position"))))]).
Proof.
  split; [|split].
  - exact Atoi_error.
  - exact Atoi_digits_error.
  - intros tok data a r user Hnew Huser. known_handle Hnew.
    now apply PullComment_proceeds.
Qed.

(** A number that is no number, a number below the smallest [int], and a
    position above the largest: the values are 0, the smallest and the
    largest [int], and the handler goes on with them. *)
Lemma Atoi_errors_dropped_witness :
  (strconv.Atoi "4x" = (0, Some strconv.ErrSyntax) /\ 0 = 0)
  /\ (strconv.Atoi "-9223372036854775809"
      = (-9223372036854775808, Some strconv.ErrRange)
      /\ -9223372036854775808 = -9223372036854775808)
  /\ (strconv.Atoi "9223372036854775808"
      = (9223372036854775807, Some strconv.ErrRange)
      /\ 9223372036854775807 = 9223372036854775807)
  /\ (strconv.ErrRange = strconv.ErrRange
      /\ 9223372036854775807 = 9223372036854775807)
  /\ exists s,
       serve (PullComment (handle "token")) (sampleAPI 0 None None None)
         {| http.Method := "POST"; http.Path := EmptyString;
            http.vars := [("owner", "octocat"); ("number", "4x");
                          ("commit", "abc123"); ("path", "main.go");
                          ("position", "9223372036854775808")] |}
       = (Some tt, s)
       /\ http.finish (w s) = emptyOK
       /\ calls s
          = [github.GetUser "octocat";
             github.CreatePullComment "octocat" EmptyString 0
               (pullComment octocat "abc123" "main.go" 9223372036854775807)].
Proof.
  split; [|split; [|split; [|split]]].
  - split; [reflexivity|].
    exact (proj1 Atoi_errors_dropped "4x" 0 strconv.ErrSyntax eq_refl).
  - split; [vm_compute; reflexivity|].
    exact (proj1 Atoi_errors_dropped "-9223372036854775809"
             (-9223372036854775808) strconv.ErrRange eq_refl).
  - split; [vm_compute; reflexivity|].
    exact (proj1 Atoi_errors_dropped "9223372036854775808"
             9223372036854775807 strconv.ErrRange eq_refl).
  - exact (proj1 (proj2 Atoi_errors_dropped) "9223372036854775808"
             9223372036854775807 strconv.ErrRange eq_refl eq_refl).
  - exact (proj2 (proj2 Atoi_errors_dropped) "token" (handle "token")
             (sampleAPI 0 None None None)
             {| http.Method := "POST"; http.Path := EmptyString;
                http.vars := [("owner", "octocat"); ("number", "4x");
                              ("commit", "abc123"); ("path", "main.go");
                              ("position", "9223372036854775808")] |}
             octocat eq_refl eq_refl).
Defined.

(** C7 as stated fails: [9223372036854775808] is a string of digits, so
    the route lets it through; its parse errors (out of range), and the
    value is the largest [int], not zero: the comment is submitted for
    pull request 9223372036854775807. *)
Lemma Atoi_range_error_is_not_zero :
  strconv.Atoi "9223372036854775808"
  = (9223372036854775807, Some strconv.ErrRange)
  /\ fst (strconv.Atoi "9223372036854775808") <> 0
  /\ exists s,
       serve (ServeHTTP (NewRouter (handle "token")))
         (sampleAPI 0 None None None)
         (request "POST"
            "/octocat/pulls/9223372036854775808/abc123/main.go/5/comment")
       = (Some tt, s)
       /\ http.finish (w s) = emptyOK
       /\ exists repo,
            calls s
            = [github.GetUser "octocat";
               github.CreatePullComment "octocat" repo
                 9223372036854775807
                 (pullComment octocat "abc123" "main.go" 5)].
Proof.
  split; [vm_compute; reflexivity|].
  split; [vm_compute; discriminate|].
  eexists. split; [vm_compute; reflexivity|].
  split; [reflexivity|eexists; reflexivity].
Qed.

(** ** The pull-comment scenario *)

(** C8 as stated fails: the file path [src/main.go] brings a slash, the
    path has eight segments where the route has seven, no route matches
    and the answer is 404; nothing is submitted. *)
Lemma nested_path_not_found :
  mux.Match (NewRouter (handle "token"))
    (request "POST" "/octocat/pulls/42/abc123/src/main.go/5/comment") false
  = mux.NoMatch mux.ErrNotFound
  /\ github.get_user (sampleAPI 0 None None None) "octocat" = (octocat, None)
  /\ exists s,
       serve (ServeHTTP (NewRouter (handle "token")))
         (sampleAPI 0 None None None)
         (request "POST" "/octocat/pulls/42/abc123/src/main.go/5/comment")
       = (Some tt, s)
       /\ http.StatusCode (http.finish (w s)) = 404
       /\ http.Body (http.finish (w s)) = "404 page not found" ++ json.newline
       /\ calls s = [].
Proof.
  split; [vm_compute; reflexivity|].
  split; [reflexivity|].
  eexists. split; [vm_compute; reflexivity|]. repeat split; reflexivity.
Qed.

(** C8, amended: with a file path of one element (not empty, without a
    slash, and neither [.] nor [..]) in the place of [src/main.go], and
    the user resolved, the request is answered 200 with an empty body,
    and a pull-request comment is submitted with number 42, commit
    [abc123], that path and position 5. *)
Theorem pull_comment_scenario (tok : string) (data : datastore)
    (a : github.API) (user : option github.User) (path : string) :
  New tok = (Some data, None) ->
  github.get_user a "octocat" = (user, None) ->
  kept path = true ->
  exists s,
    serve (ServeHTTP (NewRouter data)) a
      (request "POST" (pullPath "octocat" "42" "abc123" path "5"))
    = (Some tt, s)
    /\ http.finish (w s) = emptyOK
    /\ exists repo,
         calls s
         = [github.GetUser "octocat";
            github.CreatePullComment "octocat" repo 42
              {| github.pc_ID := None;
                 github.pc_Body := Some "hard coded comment message";
                 github.pc_User := user;
                 github.pc_Path := Some path;
                 github.pc_Position := Some 5;
                 github.pc_CommitID := Some "abc123" |}].
Proof.
  intros Hnew Huser Hpath. known_handle Hnew.
  unfold serve.
  rewrite ServeHTTP_canonical
    by (apply canonical_pullPath; (exact Hpath || reflexivity)).
  rewrite Match_pull by (exact (kept_value _ Hpath) || reflexivity).
  destruct (PullComment_proceeds tok a
              {| http.Method := "POST";
                 http.Path := pullPath "octocat" "42" "abc123" path "5";
                 http.vars := [("owner", "octocat"); ("number", "42");
                               ("commit", "abc123"); ("path", path);
                               ("position", "5")] |} user Huser)
    as (s & Hrun & Hresp & Hcalls).
  exists s. split; [exact Hrun|]. split; [exact Hresp|].
  eexists. exact Hcalls.
Qed.

Lemma pull_comment_scenario_witness :
  exists s,
    serve (ServeHTTP (NewRouter (handle "token"))) (sampleAPI 0 None None None)
      (request "POST" "/octocat/pulls/42/abc123/main.go/5/comment")
    = (Some tt, s)
    /\ http.finish (w s) = emptyOK
    /\ exists repo,
         calls s
         = [github.GetUser "octocat";
            github.CreatePullComment "octocat" repo 42
              (pullComment octocat "abc123" "main.go" 5)].
Proof.
  exact (pull_comment_scenario "token" (handle "token")
           (sampleAPI 0 None None None) octocat "main.go"
           eq_refl eq_refl eq_refl).
Defined.

(** ** The router, on small inputs *)

Example count_route :
  mux.Match (NewRouter (handle "token")) (request "GET" "/octocat/repos/count") false
  = mux.Matched (GetCount (handle "token")) [("owner", "octocat")].
Proof. reflexivity. Qed.

Example count_route_by_post :
  mux.Match (NewRouter (handle "token")) (request "POST" "/octocat/repos/count") false
  = mux.NoMatch mux.ErrNotFound.
Proof. reflexivity. Qed.

Example count_route_by_delete :
  mux.Match (NewRouter (handle "token")) (request "DELETE" "/octocat/repos/count") false
  = mux.NoMatch mux.ErrMethodMismatch.
Proof. reflexivity. Qed.

Example count_route_redirect :
  http.finish
    (w (snd (serve (ServeHTTP (NewRouter (handle "token")))
               (sampleAPI 8 None None None)
               (request "GET" "/octocat/repos//count"))))
  = {| http.StatusCode := 301;
       http.Headers := [("Location", "/octocat/repos/count")];
       http.Body := EmptyString |}.
Proof. reflexivity. Qed.

Example commit_route :
  mux.Match (NewRouter (handle "token"))
    (request "POST" "/octocat/repos/myrepo/abc123/comment") false
  = mux.Matched (CommitComment (handle "token"))
      [("owner", "octocat"); ("repo", "myrepo"); ("commit", "abc123")].
Proof. reflexivity. Qed.

Example count_served :
  http.finish
    (w (snd (serve (ServeHTTP (NewRouter (handle "token")))
               (sampleAPI 8 None None None)
               (request "GET" "/octocat/repos/count"))))
  = {| http.StatusCode := 200;
       http.Headers := [("Content-Type", contentType)];
       http.Body := "8" ++ json.newline |}.
Proof. reflexivity. Qed.

(** * More of the program *)

(** ** The shape of the paths a route matches *)

Lemma eqb_name (a b : string) : (a =? b)%string = true -> a = b.
Proof. apply String.eqb_eq. Qed.

Lemma count_route_shape (p : string) (vs : mux.RouteVars) :
  mux.matchItems countItems p = Some vs ->
  exists o,
    value_of mux.NotSlash o = true /\ p = countPath o /\ vs = [("owner", o)].
Proof.
  intros H. open_match H. revert Hpath.
  repeat match goal with H : (_ =? _)%string = true |- _ =>
           apply eqb_name in H; subst end.
  intros Hpath.
  match type of Hpath with
  | _ = expand _ [(_, ?a)] => exists a
  end.
  repeat split; assumption.
Qed.

Lemma commit_route_shape (p : string) (vs : mux.RouteVars) :
  mux.matchItems commitItems p = Some vs ->
  exists o rp c,
    value_of mux.NotSlash o = true /\ value_of mux.NotSlash rp = true
    /\ value_of mux.NotSlash c = true
    /\ p = commitPath o rp c
    /\ vs = [("owner", o); ("repo", rp); ("commit", c)].
Proof.
  intros H. open_match H. revert Hpath.
  repeat match goal with H : (_ =? _)%string = true |- _ =>
           apply eqb_name in H; subst end.
  intros Hpath.
  match type of Hpath with
  | _ = expand _ [(_, ?a); (_, ?b); (_, ?c)] => exists a, b, c
  end.
  repeat split; assumption.
Qed.

Lemma pull_route_shape (p : string) (vs : mux.RouteVars) :
  mux.matchItems pullItems p = Some vs ->
  exists o n c f pos,
    value_of mux.NotSlash o = true /\ value_of mux.Digits n = true
    /\ value_of mux.NotSlash c = true /\ value_of mux.NotSlash f = true
    /\ value_of mux.Digits pos = true
    /\ p = pullPath o n c f pos
    /\ vs = [("owner", o); ("number", n); ("commit", c); ("path", f);
             ("position", pos)].
Proof.
  intros H. open_match H. revert Hpath.
  repeat match goal with H : (_ =? _)%string = true |- _ =>
           apply eqb_name in H; subst end.
  intros Hpath.
  match type of Hpath with
  | _ = expand _ [(_, ?a); (_, ?b); (_, ?c); (_, ?d); (_, ?e)] =>
      exists a, b, c, d, e
  end.
  repeat split; assumption.
Qed.

Lemma countPath_segments (o : string) :
  segments (countPath o)
  = (EmptyString :: segments o ++ ["repos"; "count"])%list.
Proof.
  change (countPath o) with (join [EmptyString; o; "repos"; "count"]).
  rewrite segments_join. reflexivity.
Qed.

Lemma commitPath_segments (o rp c : string) :
  segments (commitPath o rp c)
  = (EmptyString :: segments o ++ "repos" :: segments rp ++ segments c
       ++ ["comment"])%list.
Proof.
  change (commitPath o rp c)
    with (join [EmptyString; o; "repos"; rp; c; "comment"]).
  rewrite segments_join. reflexivity.
Qed.

(** The three routes take paths of four, six and eight pieces (the
    empty one before the first slash included). *)
Lemma count_route_length (p : string) (vs : mux.RouteVars) :
  mux.matchItems countItems p = Some vs ->
  List.length (segments p) = 4%nat.
Proof.
  intros H. apply count_route_shape in H as (o & Ho & -> & _).
  rewrite countPath_segments, (value_segments _ _ Ho). reflexivity.
Qed.

Lemma commit_route_length (p : string) (vs : mux.RouteVars) :
  mux.matchItems commitItems p = Some vs ->
  List.length (segments p) = 6%nat.
Proof.
  intros H. apply commit_route_shape in H as (o & rp & c & Ho & Hr & Hc & -> & _).
  rewrite commitPath_segments, (value_segments _ _ Ho), (value_segments _ _ Hr),
    (value_segments _ _ Hc). reflexivity.
Qed.

Lemma pull_route_length (p : string) (vs : mux.RouteVars) :
  mux.matchItems pullItems p = Some vs ->
  List.length (segments p) = 8%nat.
Proof.
  intros H.
  apply pull_route_shape in H
    as (o & n & c & f & pos & Ho & Hn & Hc & Hf & Hpos & -> & _).
  rewrite pullPath_segments, (value_segments _ _ Ho), (value_segments _ _ Hn),
    (value_segments _ _ Hc), (value_segments _ _ Hf), (value_segments _ _ Hpos).
  reflexivity.
Qed.

(** Closes a goal [matchItems t p = None] when [p] is known to match a
    template of another length. *)
Ltac other_route :=
  lazymatch goal with
  | |- mux.matchItems ?t ?p = None =>
      let E := fresh "E" in
      destruct (mux.matchItems t p) eqn:E; [exfalso|reflexivity];
      repeat match goal with
             | H : mux.matchItems countItems _ = Some _ |- _ =>
                 apply count_route_length in H
             | H : mux.matchItems commitItems _ = Some _ |- _ =>
                 apply commit_route_length in H
             | H : mux.matchItems pullItems _ = Some _ |- _ =>
                 apply pull_route_length in H
             end;
      congruence
  end.

Lemma count_route_matches (o : string) :
  value_of mux.NotSlash o = true ->
  mux.matchItems countItems (countPath o) = Some [("owner", o)].
Proof.
  intros Ho. unfold countItems, countPath. cbn.
  repeat (erewrite matchVar_run; [| eassumption | reflexivity | cbn ]).
  all: reflexivity.
Qed.

Lemma commit_route_matches (o rp c : string) :
  value_of mux.NotSlash o = true -> value_of mux.NotSlash rp = true ->
  value_of mux.NotSlash c = true ->
  mux.matchItems commitItems (commitPath o rp c)
  = Some [("owner", o); ("repo", rp); ("commit", c)].
Proof.
  intros Ho Hr Hc. unfold commitItems, commitPath. cbn.
  repeat (erewrite matchVar_run; [| eassumption | reflexivity | cbn ]).
  all: reflexivity.
Qed.

(** [Router.Match] on the three routes, one step at a time.  A count
    path under POST is a method mismatch on the first route, which the
    method matchers of the two POST routes clear again. *)
Lemma NewRouter_Match (data : datastore) (r : http.Request) :
  mux.Match (NewRouter data) r false
  = match mux.matchItems countItems (http.Path r) with
    | Some vs =>
        if (http.Method r =? "GET")%string then mux.Matched (GetCount data) vs
        else
          mux.NoMatch (if (http.Method r =? "POST")%string
                       then mux.ErrNotFound else mux.ErrMethodMismatch)
    | None =>
        match mux.matchItems commitItems (http.Path r) with
        | Some vs =>
            if (http.Method r =? "POST")%string
            then mux.Matched (CommitComment data) vs
            else mux.NoMatch mux.ErrMethodMismatch
        | None =>
            match mux.matchItems pullItems (http.Path r) with
            | Some vs =>
                if (http.Method r =? "POST")%string
                then mux.Matched (PullComment data) vs
                else mux.NoMatch mux.ErrMethodMismatch
            | None => mux.NoMatch mux.ErrNotFound
            end
        end
    end.
Proof.
  unfold NewRouter. cbn [mux.Match].
  change (mux.matchPath (mux.route "GET" "/{owner}/repos/count" (GetCount data))
            (http.Path r))
    with (mux.matchItems countItems (http.Path r)).
  change (mux.matchPath
            (mux.route "POST" "/{owner}/repos/{repo}/{commit}/comment"
               (CommitComment data)) (http.Path r))
    with (mux.matchItems commitItems (http.Path r)).
  change (mux.matchPath
            (mux.route "POST"
               "/{owner}/pulls/{number:[0-9]+}/{commit}/{path}/{position:[0-9]+}/comment"
               (PullComment data)) (http.Path r))
    with (mux.matchItems pullItems (http.Path r)).
  cbn [mux.methods mux.handler mux.route existsb].
  rewrite !orb_false_r.
  destruct (mux.matchItems countItems (http.Path r)) eqn:E1.
  - destruct (http.Method r =? "GET")%string; [reflexivity|].
    replace (mux.matchItems commitItems (http.Path r)) with (@None mux.RouteVars)
      by (symmetry; other_route).
    replace (mux.matchItems pullItems (http.Path r)) with (@None mux.RouteVars)
      by (symmetry; other_route).
    destruct (http.Method r =? "POST")%string; reflexivity.
  - destruct (http.Method r =? "GET")%string;
      (destruct (mux.matchItems commitItems (http.Path r)) eqn:E2;
       [ destruct (http.Method r =? "POST")%string; [reflexivity|];
         replace (mux.matchItems pullItems (http.Path r))
           with (@None mux.RouteVars) by (symmetry; other_route);
         reflexivity
       | destruct (mux.matchItems pullItems (http.Path r)) eqn:E3;
         destruct (http.Method r =? "POST")%string; reflexivity ]).
Qed.

(** ** Requests served through the router *)

Lemma GetCount_run (tok : string) (a : github.API) (r : http.Request)
    (repos : list github.Repository) (err : error) :
  github.list_repositories a (var r "owner") None = (repos, err) ->
  exists s,
    serve (GetCount (handle tok)) a r = (Some tt, s)
    /\ http.finish (w s) = countResponse repos err
    /\ calls s = [github.ListRepositories (var r "owner") None]
    /\ stdout s = [].
Proof.
  intros Hlist. run_handler. unfold bind; cbn. rewrite Hlist.
  destruct err as [msg|]; cbn; eexists; repeat split; reflexivity.
Qed.

Lemma CommitComment_run (tok : string) (a : github.API) (r : http.Request)
    (user : option github.User) (err : error) :
  github.get_user a (var r "owner") = (user, err) ->
  exists s,
    serve (CommitComment (handle tok)) a r = (Some tt, s)
    /\ http.finish (w s) = commentResponse err
    /\ calls s
       = (github.GetUser (var r "owner")
          :: match err with
             | Some _ => []
             | None =>
                 [github.CreateCommitComment (var r "owner") (var r "repo")
                    (var r "commit") (commitComment user (var r "commit"))]
             end)
    /\ stdout s = [].
Proof.
  intros Huser. run_handler. unfold bind; cbn. rewrite Huser.
  destruct err as [msg|]; cbn; eexists; repeat split; reflexivity.
Qed.

Lemma PullComment_run (tok : string) (a : github.API) (r : http.Request)
    (user : option github.User) (err : error) :
  github.get_user a (var r "owner") = (user, err) ->
  let number := fst (strconv.Atoi (var r "number")) in
  let comment :=
    pullComment user (var r "commit") (var r "path")
      (fst (strconv.Atoi (var r "position"))) in
  exists s,
    serve (PullComment (handle tok)) a r = (Some tt, s)
    /\ http.finish (w s) = commentResponse err
    /\ calls s
       = (github.GetUser (var r "owner")
          :: match err with
             | Some _ => []
             | None =>
                 [github.CreatePullComment (var r "owner") (var r "repo")
                    number comment]
             end)
    /\ stdout s
       = match err with
         | Some _ => []
         | None =>
             let '(cmt, e) :=
               github.create_pull_comment a (var r "owner") (var r "repo")
                 number comment in
             (match e with Some msg => [PrintError msg] | None => [] end
              ++ [PrintComment cmt])%list
         end.
Proof.
  intros Huser. run_handler.
  destruct (strconv.Atoi (mux.index (mux.Vars r) "number")) as [number e1].
  destruct (strconv.Atoi (mux.index (mux.Vars r) "position")) as [position e2].
  unfold bind; cbn. rewrite Huser.
  destruct err as [msg|]; cbn; [eexists; repeat split; reflexivity|].
  unfold pullComment.
  destruct (github.create_pull_comment a _ _ _ _) as [cmt [e|]]; cbn;
    eexists; repeat split; reflexivity.
Qed.

(** X1: a GET of [/{owner}/repos/count], for any owner that is one
    path element (not empty, without a slash, neither [.] nor [..], so
    that the path is in canonical form), is routed to the count handler
    with that owner: one listing call, with no list options, and the
    response of its outcome. *)
Theorem count_request_served (tok : string) (data : datastore)
    (a : github.API) (owner : string) (repos : list github.Repository)
    (err : error) :
  New tok = (Some data, None) ->
  kept owner = true ->
  github.list_repositories a owner None = (repos, err) ->
  exists s,
    serve (ServeHTTP (NewRouter data)) a (request "GET" (countPath owner))
    = (Some tt, s)
    /\ http.finish (w s) = countResponse repos err
    /\ calls s = [github.ListRepositories owner None].
Proof.
  intros Hnew Ho Hlist. known_handle Hnew.
  unfold serve.
  rewrite ServeHTTP_canonical by (apply canonical_countPath, Ho).
  rewrite NewRouter_Match. cbn [http.Path http.Method request].
  rewrite (count_route_matches _ (kept_value _ Ho)).
  cbn [String.eqb Ascii.eqb Bool.eqb].
  destruct (GetCount_run tok a
              {| http.Method := "GET"; http.Path := countPath owner;
                 http.vars := [("owner", owner)] |} repos err Hlist)
    as (s & Hrun & Hresp & Hcalls & _).
  exists s. repeat split; assumption.
Qed.

Lemma count_request_served_witness :
  exists s,
    serve (ServeHTTP (NewRouter (handle "token"))) (sampleAPI 3 None None None)
      (request "GET" "/octocat/repos/count")
    = (Some tt, s)
    /\ http.finish (w s)
       = {| http.StatusCode := 200;
            http.Headers := [("Content-Type", contentType)];
            http.Body := "3" ++ json.newline |}
    /\ calls s = [github.ListRepositories "octocat" None].
Proof.
  exact (count_request_served "token" (handle "token")
           (sampleAPI 3 None None None) "octocat"
           (repeat {| github.Name := "repo" |} 3) None
           eq_refl eq_refl eq_refl).
Defined.

(** X2: a POST of [/{owner}/repos/{repo}/{commit}/comment], each
    variable one path element (not empty, without a slash, neither [.]
    nor [..]), is routed to the commit-comment handler: the
    user of the owner is looked up and, if that succeeds, the comment is
    created on that owner's repository at that commit; the response
    depends on the lookup alone. *)
Theorem commit_request_served (tok : string) (data : datastore)
    (a : github.API) (owner repo commit : string)
    (user : option github.User) (err : error) :
  New tok = (Some data, None) ->
  kept owner = true ->
  kept repo = true ->
  kept commit = true ->
  github.get_user a owner = (user, err) ->
  exists s,
    serve (ServeHTTP (NewRouter data)) a
      (request "POST" (commitPath owner repo commit))
    = (Some tt, s)
    /\ http.finish (w s) = commentResponse err
    /\ calls s
       = (github.GetUser owner
          :: match err with
             | Some _ => []
             | None =>
                 [github.CreateCommitComment owner repo commit
                    (commitComment user commit)]
             end).
Proof.
  intros Hnew Ho Hr Hc Huser. known_handle Hnew.
  unfold serve.
  rewrite ServeHTTP_canonical by (now apply canonical_commitPath).
  rewrite NewRouter_Match.
  cbn [http.Path http.Method request].
  assert (Hm := commit_route_matches _ _ _ (kept_value _ Ho) (kept_value _ Hr)
                  (kept_value _ Hc)).
  replace (mux.matchItems countItems (commitPath owner repo commit))
    with (@None mux.RouteVars) by (symmetry; other_route).
  rewrite Hm. cbn [String.eqb Ascii.eqb Bool.eqb].
  destruct (CommitComment_run tok a
              {| http.Method := "POST";
                 http.Path := commitPath owner repo commit;
                 http.vars := [("owner", owner); ("repo", repo);
                               ("commit", commit)] |} user err Huser)
    as (s & Hrun & Hresp & Hcalls & _).
  exists s. repeat split; assumption.
Qed.

Lemma commit_request_served_witness :
  exists s,
    serve (ServeHTTP (NewRouter (handle "token"))) (sampleAPI 0 None None None)
      (request "POST" "/octocat/repos/myrepo/abc123/comment")
    = (Some tt, s)
    /\ http.finish (w s) = emptyOK
    /\ calls s
       = [github.GetUser "octocat";
          github.CreateCommitComment "octocat" "myrepo" "abc123"
            (commitComment octocat "abc123")].
Proof.
  exact (commit_request_served "token" (handle "token")
           (sampleAPI 0 None None None) "octocat" "myrepo" "abc123"
           octocat None eq_refl eq_refl eq_refl eq_refl eq_refl).
Defined.

(** X3: a POST on the pull-comment route, the number and the position
    strings of digits and each other variable one path element (not
    empty, without a slash, neither [.] nor [..]), reaches the
    pull-comment handler, and with the user resolved
    the comment is created with the empty string as repository name: the
    handler reads the variable [repo], which the route does not have. *)
Theorem pull_request_served (tok : string) (data : datastore)
    (a : github.API) (owner number commit path position : string)
    (user : option github.User) :
  New tok = (Some data, None) ->
  kept owner = true ->
  value_of mux.Digits number = true ->
  kept commit = true ->
  kept path = true ->
  value_of mux.Digits position = true ->
  github.get_user a owner = (user, None) ->
  exists s,
    serve (ServeHTTP (NewRouter data)) a
      (request "POST" (pullPath owner number commit path position))
    = (Some tt, s)
    /\ http.finish (w s) = emptyOK
    /\ calls s
       = [github.GetUser owner;
          github.CreatePullComment owner EmptyString
            (fst (strconv.Atoi number))
            (pullComment user commit path (fst (strconv.Atoi position)))].
Proof.
  intros Hnew Ho Hn Hc Hf Hp Huser. known_handle Hnew.
  unfold serve.
  rewrite ServeHTTP_canonical by (now apply canonical_pullPath).
  rewrite (Match_pull _ _ _ _ _ _ (kept_value _ Ho) Hn (kept_value _ Hc)
             (kept_value _ Hf) Hp).
  destruct (PullComment_run tok a
              {| http.Method := "POST";
                 http.Path := pullPath owner number commit path position;
                 http.vars := [("owner", owner); ("number", number);
                               ("commit", commit); ("path", path);
                               ("position", position)] |} user None Huser)
    as (s & Hrun & Hresp & Hcalls & _).
  exists s. repeat split; assumption.
Qed.

Lemma pull_request_served_witness :
  exists s,
    serve (ServeHTTP (NewRouter (handle "token"))) (sampleAPI 0 None None None)
      (request "POST" "/octocat/pulls/42/abc123/main.go/5/comment")
    = (Some tt, s)
    /\ http.finish (w s) = emptyOK
    /\ calls s
       = [github.GetUser "octocat";
          github.CreatePullComment "octocat" EmptyString 42
            (pullComment octocat "abc123" "main.go" 5)].
Proof.
  exact (pull_request_served "token" (handle "token")
           (sampleAPI 0 None None None) "octocat" "42" "abc123" "main.go" "5"
           octocat eq_refl eq_refl eq_refl eq_refl eq_refl eq_refl eq_refl).
Defined.

(** X4: a request the router hands to a handler is a GET of a count
    path or a POST of a commit-comment or pull-comment path, made of
    values of the route's patterns; the handler is the one of that route
    and the variables are those values. *)
Theorem routes_recognized (data : datastore) (r : http.Request)
    (h : HandlerFunc) (vs : mux.RouteVars) :
  mux.Match (NewRouter data) r false = mux.Matched h vs ->
  (http.Method r = "GET" /\ h = GetCount data
   /\ exists o,
        value_of mux.NotSlash o = true /\ http.Path r = countPath o
        /\ vs = [("owner", o)])
  \/ (http.Method r = "POST" /\ h = CommitComment data
      /\ exists o rp c,
           value_of mux.NotSlash o = true /\ value_of mux.NotSlash rp = true
           /\ value_of mux.NotSlash c = true
           /\ http.Path r = commitPath o rp c
           /\ vs = [("owner", o); ("repo", rp); ("commit", c)])
  \/ (http.Method r = "POST" /\ h = PullComment data
      /\ exists o n c f pos,
           value_of mux.NotSlash o = true /\ value_of mux.Digits n = true
           /\ value_of mux.NotSlash c = true /\ value_of mux.NotSlash f = true
           /\ value_of mux.Digits pos = true
           /\ http.Path r = pullPath o n c f pos
           /\ vs = [("owner", o); ("number", n); ("commit", c); ("path", f);
                    ("position", pos)]).
Proof.
  rewrite NewRouter_Match.
  destruct (mux.matchItems countItems (http.Path r)) as [v1|] eqn:E1.
  - destruct (String.eqb_spec (http.Method r) "GET") as [Hm|]; [|discriminate].
    intros [= <- <-]. left. repeat split; auto.
    now apply count_route_shape.
  - destruct (mux.matchItems commitItems (http.Path r)) as [v2|] eqn:E2.
    + destruct (String.eqb_spec (http.Method r) "POST") as [Hm|]; [|discriminate].
      intros [= <- <-]. right; left. repeat split; auto.
      now apply commit_route_shape.
    + destruct (mux.matchItems pullItems (http.Path r)) as [v3|] eqn:E3;
        [|discriminate].
      destruct (String.eqb_spec (http.Method r) "POST") as [Hm|]; [|discriminate].
      intros [= <- <-]. right; right. repeat split; auto.
      now apply pull_route_shape.
Qed.

Lemma routes_recognized_witness :
  ("POST" = "GET" /\ CommitComment (handle "token") = GetCount (handle "token")
   /\ exists o,
        value_of mux.NotSlash o = true
        /\ "/octocat/repos/myrepo/abc123/comment" = countPath o
        /\ [("owner", "octocat"); ("repo", "myrepo"); ("commit", "abc123")]
           = [("owner", o)])
  \/ ("POST" = "POST" /\ CommitComment (handle "token") = CommitComment (handle "token")
      /\ exists o rp c,
           value_of mux.NotSlash o = true /\ value_of mux.NotSlash rp = true
           /\ value_of mux.NotSlash c = true
           /\ "/octocat/repos/myrepo/abc123/comment" = commitPath o rp c
           /\ [("owner", "octocat"); ("repo", "myrepo"); ("commit", "abc123")]
              = [("owner", o); ("repo", rp); ("commit", c)])
  \/ ("POST" = "POST" /\ CommitComment (handle "token") = PullComment (handle "token")
      /\ exists o n c f pos,
           value_of mux.NotSlash o = true /\ value_of mux.Digits n = true
           /\ value_of mux.NotSlash c = true /\ value_of mux.NotSlash f = true
           /\ value_of mux.Digits pos = true
           /\ "/octocat/repos/myrepo/abc123/comment" = pullPath o n c f pos
           /\ [("owner", "octocat"); ("repo", "myrepo"); ("commit", "abc123")]
              = [("owner", o); ("number", n); ("commit", c); ("path", f);
                 ("position", pos)]).
Proof.
  exact (routes_recognized (handle "token")
           (request "POST" "/octocat/repos/myrepo/abc123/comment")
           (CommitComment (handle "token"))
           [("owner", "octocat"); ("repo", "myrepo"); ("commit", "abc123")]
           eq_refl).
Defined.

(** X5: no path is matched by the path matchers of two of the routes
    that [NewRouter] registers. *)
Theorem routes_disjoint (data : datastore) (p : string) :
  (List.length (filter (fun route => matches route p) (NewRouter data))
   <= 1)%nat.
Proof.
  unfold NewRouter, matches. cbn [filter].
  change (mux.matchPath (mux.route "GET" "/{owner}/repos/count" (GetCount data)) p)
    with (mux.matchItems countItems p).
  change (mux.matchPath
            (mux.route "POST" "/{owner}/repos/{repo}/{commit}/comment"
               (CommitComment data)) p)
    with (mux.matchItems commitItems p).
  change (mux.matchPath
            (mux.route "POST"
               "/{owner}/pulls/{number:[0-9]+}/{commit}/{path}/{position:[0-9]+}/comment"
               (PullComment data)) p)
    with (mux.matchItems pullItems p).
  destruct (mux.matchItems countItems p) eqn:E1;
    destruct (mux.matchItems commitItems p) eqn:E2;
    destruct (mux.matchItems pullItems p) eqn:E3; cbn; try lia; exfalso;
    repeat match goal with
           | H : mux.matchItems countItems _ = Some _ |- _ =>
               apply count_route_length in H
           | H : mux.matchItems commitItems _ = Some _ |- _ =>
               apply commit_route_length in H
           | H : mux.matchItems pullItems _ = Some _ |- _ =>
               apply pull_route_length in H
           end; congruence.
Qed.

Lemma refused_405 (data : datastore) (a : github.API) (r : http.Request) :
  canonical (http.Path r) = true ->
  mux.Match (NewRouter data) r false = mux.NoMatch mux.ErrMethodMismatch ->
  refused data a r 405.
Proof.
  intros Hc Hm. unfold refused, serve.
  rewrite (ServeHTTP_canonical _ _ Hc), Hm. cbn.
  eexists; repeat split; reflexivity.
Qed.

Lemma refused_404 (data : datastore) (a : github.API) (r : http.Request) :
  canonical (http.Path r) = true ->
  mux.Match (NewRouter data) r false = mux.NoMatch mux.ErrNotFound ->
  refused data a r 404.
Proof.
  intros Hc Hm. unfold refused, serve.
  rewrite (ServeHTTP_canonical _ _ Hc), Hm. cbn.
  eexists; repeat split; reflexivity.
Qed.

Lemma refused_301 (data : datastore) (a : github.API) (r : http.Request) :
  canonical (http.Path r) = false ->
  refused data a r 301.
Proof.
  intros Hc. unfold refused, serve. rewrite (ServeHTTP_redirect _ _ Hc).
  eexists; repeat split; reflexivity.
Qed.

(** X6: a path of one of the three routes (each variable one path
    element, not empty, without a slash, neither [.] nor [..]; the
    number and the position strings of digits) under another method than
    the route's runs no handler: a request that is no POST creates no
    comment, and one that is no GET lists nothing.  The router answers
    405, but for a POST of a count path: there the method matcher of the
    POST routes, which matches, clears the mismatch that the count route
    noted, and the answer is 404. *)
Theorem wrong_method_refused (data : datastore) (a : github.API)
    (method : string) :
  (forall o,
     kept o = true -> method <> "GET" ->
     refused data a (request method (countPath o))
       (if (method =? "POST")%string then 404 else 405))
  /\ (forall o rp c,
        kept o = true -> kept rp = true -> kept c = true ->
        method <> "POST" ->
        refused data a (request method (commitPath o rp c)) 405)
  /\ (forall o n c f pos,
        kept o = true -> value_of mux.Digits n = true ->
        kept c = true -> kept f = true ->
        value_of mux.Digits pos = true -> method <> "POST" ->
        refused data a (request method (pullPath o n c f pos)) 405).
Proof.
  split; [|split].
  - intros o Ho Hm.
    assert (Hmatch :
      mux.Match (NewRouter data) (request method (countPath o)) false
      = mux.NoMatch (if (method =? "POST")%string
                     then mux.ErrNotFound else mux.ErrMethodMismatch)).
    { rewrite NewRouter_Match. cbn [http.Path http.Method request].
      rewrite (count_route_matches _ (kept_value _ Ho)).
      apply String.eqb_neq in Hm. now rewrite Hm. }
    destruct (method =? "POST")%string.
    + apply refused_404; [apply canonical_countPath, Ho|exact Hmatch].
    + apply refused_405; [apply canonical_countPath, Ho|exact Hmatch].
  - intros o rp c Ho Hr Hc Hm.
    apply refused_405; [now apply canonical_commitPath|].
    rewrite NewRouter_Match.
    cbn [http.Path http.Method request].
    assert (H := commit_route_matches _ _ _ (kept_value _ Ho) (kept_value _ Hr)
                   (kept_value _ Hc)).
    replace (mux.matchItems countItems (commitPath o rp c))
      with (@None mux.RouteVars) by (symmetry; other_route).
    rewrite H. apply String.eqb_neq in Hm. now rewrite Hm.
  - intros o n c f pos Ho Hn Hc Hf Hp Hm.
    apply refused_405; [now apply canonical_pullPath|].
    rewrite NewRouter_Match. cbn [http.Path http.Method request].
    rewrite count_route_no_pull, commit_route_no_pull,
      (pull_route_matches _ _ _ _ _ (kept_value _ Ho) Hn (kept_value _ Hc)
         (kept_value _ Hf) Hp).
    apply String.eqb_neq in Hm. now rewrite Hm.
Qed.

Lemma wrong_method_refused_witness :
  refused (handle "token") (sampleAPI 2 None None None)
    (request "POST" "/octocat/repos/count") 404
  /\ refused (handle "token") (sampleAPI 2 None None None)
       (request "DELETE" "/octocat/repos/count") 405
  /\ refused (handle "token") (sampleAPI 2 None None None)
       (request "GET" "/octocat/repos/myrepo/abc123/comment") 405
  /\ refused (handle "token") (sampleAPI 2 None None None)
       (request "GET" "/octocat/pulls/42/abc123/main.go/5/comment") 405.
Proof.
  assert (Hpost : "POST" <> "GET") by discriminate.
  assert (Hdelete : "DELETE" <> "GET") by discriminate.
  assert (Hget : "GET" <> "POST") by discriminate.
  split; [|split; [|split]].
  - exact (proj1 (wrong_method_refused (handle "token")
                    (sampleAPI 2 None None None) "POST")
             "octocat" eq_refl Hpost).
  - exact (proj1 (wrong_method_refused (handle "token")
                    (sampleAPI 2 None None None) "DELETE")
             "octocat" eq_refl Hdelete).
  - exact (proj1 (proj2 (wrong_method_refused (handle "token")
                           (sampleAPI 2 None None None) "GET"))
             "octocat" "myrepo" "abc123" eq_refl eq_refl eq_refl Hget).
  - exact (proj2 (proj2 (wrong_method_refused (handle "token")
                           (sampleAPI 2 None None None) "GET"))
             "octocat" "42" "abc123" "main.go" "5"
             eq_refl eq_refl eq_refl eq_refl eq_refl Hget).
Defined.

(** X7: a path that does not split into four, six or eight pieces at
    its slashes (three, five or seven segments after the leading slash)
    is matched by no route, under any method, and no handler runs: the
    answer is 404 when the path is in canonical form, and the redirect
    to that form, 301, when it is not. *)
Theorem other_paths_not_found (data : datastore) (a : github.API)
    (r : http.Request) :
  List.length (segments (http.Path r)) <> 4%nat ->
  List.length (segments (http.Path r)) <> 6%nat ->
  List.length (segments (http.Path r)) <> 8%nat ->
  mux.Match (NewRouter data) r false = mux.NoMatch mux.ErrNotFound
  /\ refused data a r (if canonical (http.Path r) then 404 else 301).
Proof.
  intros H4 H6 H8.
  assert (Hm : mux.Match (NewRouter data) r false = mux.NoMatch mux.ErrNotFound).
  { rewrite NewRouter_Match.
    destruct (mux.matchItems countItems _) eqn:E1;
      [now apply count_route_length in E1|].
    destruct (mux.matchItems commitItems _) eqn:E2;
      [now apply commit_route_length in E2|].
    destruct (mux.matchItems pullItems _) eqn:E3;
      [now apply pull_route_length in E3|reflexivity]. }
  split; [exact Hm|].
  destruct (canonical (http.Path r)) eqn:Hc.
  - now apply refused_404.
  - now apply refused_301.
Qed.

Lemma other_paths_not_found_witness :
  (mux.Match (NewRouter (handle "token")) (request "GET" "/octocat/repos") false
   = mux.NoMatch mux.ErrNotFound
   /\ refused (handle "token") (sampleAPI 2 None None None)
        (request "GET" "/octocat/repos") 404)
  /\ (mux.Match (NewRouter (handle "token")) (request "GET" "/./repos")
        false
      = mux.NoMatch mux.ErrNotFound
      /\ refused (handle "token") (sampleAPI 2 None None None)
           (request "GET" "/./repos") 301).
Proof.
  assert (H3 : forall n : nat, 3%nat <> S (S (S (S n)))) by discriminate.
  split.
  - exact (other_paths_not_found (handle "token") (sampleAPI 2 None None None)
             (request "GET" "/octocat/repos") (H3 0%nat) (H3 2%nat) (H3 4%nat)).
  - exact (other_paths_not_found (handle "token") (sampleAPI 2 None None None)
             (request "GET" "/./repos") (H3 0%nat) (H3 2%nat) (H3 4%nat)).
Defined.

(** ** The numbers of the pull-comment route *)

Lemma digit_bounds (c : ascii) :
  strconv.is_digit c = true -> 0 <= strconv.digit c <= 9.
Proof.
  unfold strconv.is_digit, strconv.digit. intros H.
  apply andb_prop in H as [H1 H2].
  apply N.leb_le in H1, H2. lia.
Qed.

Lemma atoiLoop_bounds (s : string) :
  forall n m,
    0 <= n -> strconv.atoiLoop n s = Some m ->
    n * 10 ^ Z.of_nat (String.length s) <= m
    < (n + 1) * 10 ^ Z.of_nat (String.length s).
Proof.
  induction s as [|c s IH]; intros n m Hn H.
  - cbn in H. injection H as <-. cbn. lia.
  - cbn [strconv.atoiLoop] in H.
    destruct (strconv.is_digit c) eqn:Hc; cbn in H; [|discriminate].
    pose proof (digit_bounds c Hc) as Hd.
    apply IH in H; [|lia].
    cbn [String.length]. rewrite Nat2Z.inj_succ, Z.pow_succ_r by lia.
    assert (0 < 10 ^ Z.of_nat (String.length s)) by (apply Z.pow_pos_nonneg; lia).
    nia.
Qed.

Lemma parseUintLoop_nonneg (maxVal : Z) (s : string) :
  forall n, 0 <= n -> 0 <= maxVal ->
            0 <= fst (strconv.parseUintLoop maxVal n s).
Proof.
  induction s as [|c s IH]; intros n Hn Hmax; cbn; [exact Hn|].
  destruct (negb _); cbn; [lia|].
  destruct (_ <=? n); cbn; [exact Hmax|].
  destruct (_ || _); cbn; [exact Hmax|].
  apply IH; [|exact Hmax]. unfold strconv.uint64. apply Z.mod_pos_bound. lia.
Qed.

Lemma parseUintLoop_range (maxVal : Z) (s : string) :
  forall n v,
    strconv.parseUintLoop maxVal n s = (v, Some strconv.ErrRange) -> v = maxVal.
Proof.
  induction s as [|c s IH]; cbn; intros n v H; [discriminate|].
  destruct (negb _); cbn in H; [discriminate|].
  destruct (_ <=? n); [congruence|].
  destruct (_ || _); [congruence|]. eapply IH, H.
Qed.

Lemma int64_small (z : Z) :
  0 <= z < 2 ^ 63 -> strconv.int64 z = z.
Proof.
  intros H. unfold strconv.int64.
  rewrite Z.mod_small; lia.
Qed.

(** On a string of digits [Atoi] returns an [int] that is not negative,
    with or without an error. *)
Lemma Atoi_digits_range (s : string) :
  value_of mux.Digits s = true ->
  0 <= fst (strconv.Atoi s) <= 9223372036854775807.
Proof.
  intros Hs.
  destruct (strconv.Atoi s) as [v [e|]] eqn:HA.
  - apply (Atoi_digits_error _ _ _ Hs) in HA as [_ ->]. cbn. lia.
  - cbn. destruct s as [|c s]; [discriminate|].
    assert (Hall : all_in mux.Digits (String c s) = true) by exact Hs.
    cbn in Hs. apply andb_prop in Hs as [Hc _].
    destruct (digit_not_sign c Hc) as [Hminus Hplus].
    unfold strconv.Atoi in HA.
    destruct (_ && _) eqn:Hlen.
    + rewrite Hminus, Hplus in HA. cbn [orb andb] in HA.
      destruct (strconv.atoiLoop 0 (String c s)) as [m|] eqn:Hloop;
        [|discriminate].
      injection HA as <-.
      apply atoiLoop_bounds in Hloop; [|lia].
      apply andb_prop in Hlen as [_ Hlt]. apply Z.ltb_lt in Hlt.
      assert (10 ^ Z.of_nat (String.length (String c s)) <= 10 ^ 18)
        by (apply Z.pow_le_mono_r; lia).
      change (10 ^ 18) with 1000000000000000000 in *. lia.
    + unfold strconv.ParseInt in HA. rewrite Hminus, Hplus in HA.
      cbn [orb andb negb] in HA.
      destruct (strconv.ParseUint _) as [un err] eqn:Hu.
      assert (Hun : 0 <= un).
      { change un with (fst (un, err)). rewrite <- Hu.
        cbn -[strconv.parseUintLoop Z.pow].
        apply parseUintLoop_nonneg; [lia|]. now vm_compute. }
      destruct err as [[|]|].
      * discriminate.
      * cbn -[strconv.parseUintLoop Z.pow] in Hu.
        apply parseUintLoop_range in Hu. subst un. discriminate.
      * destruct (_ <=? un) eqn:Hcut; [discriminate|].
        injection HA as <-. apply Z.leb_gt in Hcut.
        change (2 ^ (strconv.IntSize - 1)) with 9223372036854775808 in Hcut.
        rewrite int64_small; [lia|]. change (2 ^ 63) with 9223372036854775808. lia.
Qed.

Lemma dval_ge (d : Decimal.uint) : forall acc, 0 <= acc -> acc <= dval d acc.
Proof.
  induction d; intros acc Hacc; cbn [dval]; [lia| | | | | | | | | |];
    (etransitivity; [|apply IHd]; lia).
Qed.

Lemma dval_of_uint_acc (d : Decimal.uint) :
  forall acc, Zpos (Pos.of_uint_acc d acc) = dval d (Zpos acc).
Proof.
  induction d; intros acc; cbn [Pos.of_uint_acc dval]; [reflexivity| | | | | | | | | |];
    rewrite IHd; f_equal; lia.
Qed.

Lemma dval_of_uint (d : Decimal.uint) : Z.of_uint d = dval d 0.
Proof.
  unfold Z.of_uint.
  induction d; cbn [Pos.of_uint dval]; [reflexivity|exact IHd| | | | | | | | |];
    cbn [Z.of_N]; rewrite dval_of_uint_acc; reflexivity.
Qed.

Lemma string_of_uint_digits (d : Decimal.uint) :
  all_in mux.Digits (NilEmpty.string_of_uint d) = true.
Proof. induction d; cbn; auto. Qed.

(** Replaces the value of a digit that is known by that value. *)
Ltac digit_value :=
  repeat match goal with
         | |- context [strconv.digit ?c] =>
             let v := eval vm_compute in (strconv.digit c) in
             change (strconv.digit c) with v
         end.

Lemma atoiLoop_dval (d : Decimal.uint) :
  forall acc,
    strconv.atoiLoop acc (NilEmpty.string_of_uint d) = Some (dval d acc).
Proof.
  induction d; intros acc; cbn [NilEmpty.string_of_uint strconv.atoiLoop dval];
    [reflexivity| | | | | | | | | |].
  all: cbn -[strconv.atoiLoop Z.mul Z.add strconv.digit].
  all: rewrite IHd; do 2 f_equal; digit_value; lia.
Qed.

Lemma parseUintLoop_step (c : ascii) (rest : string) (acc : Z) :
  strconv.is_digit c = true -> 0 <= acc ->
  10 * acc + strconv.digit c <= 18446744073709551615 ->
  strconv.parseUintLoop 18446744073709551615 acc (String c rest)
  = strconv.parseUintLoop 18446744073709551615 (10 * acc + strconv.digit c) rest.
Proof.
  intros Hc Hacc Hle. pose proof (digit_bounds c Hc) as Hd.
  cbn [strconv.parseUintLoop]. rewrite Hc. cbn [negb].
  change (strconv.maxUint64 / 10 + 1) with 1844674407370955162.
  unfold strconv.uint64. change (2 ^ 64) with 18446744073709551616.
  rewrite (Z.mod_small (acc * 10)) by lia.
  rewrite (Z.mod_small (acc * 10 + strconv.digit c)) by lia.
  destruct (Z.leb_spec 1844674407370955162 acc); [lia|].
  destruct (Z.ltb_spec (acc * 10 + strconv.digit c) (acc * 10)); [lia|].
  destruct (Z.ltb_spec 18446744073709551615 (acc * 10 + strconv.digit c)); [lia|].
  cbn [orb]. f_equal. lia.
Qed.

Lemma parseUintLoop_dval (d : Decimal.uint) :
  forall acc,
    0 <= acc -> dval d acc <= 18446744073709551615 ->
    strconv.parseUintLoop 18446744073709551615 acc (NilEmpty.string_of_uint d)
    = (dval d acc, None).
Proof.
  induction d; intros acc Hacc Hle; cbn [NilEmpty.string_of_uint dval] in *;
    [reflexivity| | | | | | | | | |].
  all: match type of Hle with
       | dval _ ?a <= _ =>
           pose proof (dval_ge d a ltac:(lia)) as Hge
       end.
  all: rewrite parseUintLoop_step; [|reflexivity|exact Hacc|digit_value; lia].
  all: digit_value; rewrite ?Z.add_0_r; apply IHd; [lia|exact Hle].
Qed.

(** The decimal numeral of a number in the range of [int] that is not
    negative parses back to the number, on either path of [Atoi]. *)
Lemma Atoi_string_of_uint (d : Decimal.uint) :
  d <> Decimal.Nil -> dval d 0 < 9223372036854775808 ->
  strconv.Atoi (NilEmpty.string_of_uint d) = (dval d 0, None).
Proof.
  intros Hnil Hlt.
  pose proof (string_of_uint_digits d) as Hall.
  pose proof (atoiLoop_dval d 0) as Hfast.
  pose proof (dval_ge d 0 ltac:(lia)) as Hge.
  pose proof (parseUintLoop_dval d 0 ltac:(lia) ltac:(lia)) as Hslow.
  destruct (NilEmpty.string_of_uint d) as [|c s] eqn:Hs;
    [destruct d; try discriminate; now elim Hnil|].
  cbn [all_in] in Hall. apply andb_prop in Hall as [Hc _].
  destruct (digit_not_sign c Hc) as [Hminus Hplus].
  unfold strconv.Atoi. destruct (_ && _).
  - rewrite Hminus, Hplus. cbn [orb andb]. now rewrite Hfast.
  - unfold strconv.ParseInt. rewrite Hminus, Hplus. cbn [orb andb negb].
    unfold strconv.ParseUint.
    change (2 ^ strconv.IntSize - 1) with 18446744073709551615.
    rewrite Hslow.
    change (2 ^ (strconv.IntSize - 1)) with 9223372036854775808.
    destruct (Z.leb_spec 9223372036854775808 (dval d 0)); [lia|].
    rewrite int64_small; [reflexivity|].
    change (2 ^ 63) with 9223372036854775808. lia.
Qed.

Lemma itoa_digits (n : Z) : 0 <= n -> value_of mux.Digits (json.itoa n) = true.
Proof.
  intros Hn. unfold json.itoa.
  destruct n as [|p|p]; [reflexivity| |lia].
  cbn [Z.to_int NilZero.string_of_int].
  pose proof (Unsigned.to_uint_nonnil p) as Hnil.
  pose proof (string_of_uint_digits (Pos.to_uint p)) as Hall.
  unfold NilZero.string_of_uint.
  destruct (Pos.to_uint p) eqn:Hd; [now elim Hnil| | | | | | | | | |];
    exact Hall.
Qed.

Lemma Atoi_itoa (n : Z) :
  0 <= n < 9223372036854775808 -> strconv.Atoi (json.itoa n) = (n, None).
Proof.
  intros [Hn Hlt]. unfold json.itoa.
  destruct n as [|p|p]; [reflexivity| |lia].
  cbn [Z.to_int NilZero.string_of_int].
  pose proof (Unsigned.to_uint_nonnil p) as Hnil.
  assert (Hv : dval (Pos.to_uint p) 0 = Zpos p).
  { rewrite <- dval_of_uint.
    change (Z.of_uint (Pos.to_uint p)) with (Z.of_int (Z.to_int (Zpos p))).
    apply DecimalZ.of_to. }
  replace (NilZero.string_of_uint (Pos.to_uint p))
    with (NilEmpty.string_of_uint (Pos.to_uint p))
    by (unfold NilZero.string_of_uint; destruct (Pos.to_uint p);
        [now elim Hnil|reflexivity..]).
  rewrite Atoi_string_of_uint; [now rewrite Hv|exact Hnil|lia].
Qed.

(** X8: the decimal numerals of a pull-request number and of a position
    in the range of [int] come through [Atoi] unchanged: a POST of
    [/{owner}/pulls/n/{commit}/{path}/k/comment], the owner, the commit
    and the path each one path element (not empty, without a slash,
    neither [.] nor [..]), creates the comment for pull request [n] at
    position [k]. *)
Theorem pull_numbers_round_trip (tok : string) (data : datastore)
    (a : github.API) (owner commit path : string) (n k : Z)
    (user : option github.User) :
  New tok = (Some data, None) ->
  kept owner = true ->
  kept commit = true ->
  kept path = true ->
  0 <= n < 9223372036854775808 ->
  0 <= k < 9223372036854775808 ->
  github.get_user a owner = (user, None) ->
  exists s,
    serve (ServeHTTP (NewRouter data)) a
      (request "POST"
         (pullPath owner (json.itoa n) commit path (json.itoa k)))
    = (Some tt, s)
    /\ calls s
       = [github.GetUser owner;
          github.CreatePullComment owner EmptyString n
            {| github.pc_ID := None;
               github.pc_Body := Some pullMessage;
               github.pc_User := user;
               github.pc_Path := Some path;
               github.pc_Position := Some k;
               github.pc_CommitID := Some commit |}].
Proof.
  intros Hnew Ho Hc Hf Hn Hk Huser. known_handle Hnew.
  unfold serve.
  rewrite ServeHTTP_canonical
    by (apply canonical_pullPath; try assumption; now apply itoa_digits).
  rewrite (Match_pull _ _ _ _ _ _ (kept_value _ Ho) (itoa_digits n (proj1 Hn))
             (kept_value _ Hc) (kept_value _ Hf) (itoa_digits k (proj1 Hk))).
  destruct (PullComment_run tok a
              {| http.Method := "POST";
                 http.Path :=
                   pullPath owner (json.itoa n) commit path (json.itoa k);
                 http.vars := [("owner", owner); ("number", json.itoa n);
                               ("commit", commit); ("path", path);
                               ("position", json.itoa k)] |} user None Huser)
    as (s & Hrun & _ & Hcalls & _).
  exists s. split; [exact Hrun|].
  rewrite Hcalls. unfold var. cbn [mux.Vars http.vars mux.index String.eqb Ascii.eqb Bool.eqb].
  now rewrite (Atoi_itoa n Hn), (Atoi_itoa k Hk).
Qed.

Lemma pull_numbers_round_trip_witness :
  exists s,
    serve (ServeHTTP (NewRouter (handle "token"))) (sampleAPI 0 None None None)
      (request "POST"
         "/octocat/pulls/1234567890123456789/abc123/main.go/17/comment")
    = (Some tt, s)
    /\ calls s
       = [github.GetUser "octocat";
          github.CreatePullComment "octocat" EmptyString 1234567890123456789
            (pullComment octocat "abc123" "main.go" 17)].
Proof.
  assert (Hn : 0 <= 1234567890123456789 < 9223372036854775808)
    by (split; [discriminate|reflexivity]).
  assert (Hk : 0 <= 17 < 9223372036854775808)
    by (split; [discriminate|reflexivity]).
  exact (pull_numbers_round_trip "token" (handle "token")
           (sampleAPI 0 None None None) "octocat" "abc123" "main.go"
           1234567890123456789 17 octocat
           eq_refl eq_refl eq_refl eq_refl Hn Hk eq_refl).
Defined.

(** X9: whatever digits stand for the number and the position (the
    owner, the commit and the path each one path element: not empty,
    without a slash, neither [.] nor [..]), the comment is created with
    a number and a position between 0 and the largest [int]: never a
    negative one. *)
Theorem pull_numbers_in_range (tok : string) (data : datastore)
    (a : github.API) (owner number commit path position : string)
    (user : option github.User) :
  New tok = (Some data, None) ->
  kept owner = true ->
  value_of mux.Digits number = true ->
  kept commit = true ->
  kept path = true ->
  value_of mux.Digits position = true ->
  github.get_user a owner = (user, None) ->
  exists s repo n k,
    serve (ServeHTTP (NewRouter data)) a
      (request "POST" (pullPath owner number commit path position))
    = (Some tt, s)
    /\ calls s
       = [github.GetUser owner;
          github.CreatePullComment owner repo n
            (pullComment user commit path k)]
    /\ 0 <= n <= 9223372036854775807
    /\ 0 <= k <= 9223372036854775807.
Proof.
  intros Hnew Ho Hn Hc Hf Hp Huser. known_handle Hnew.
  unfold serve.
  rewrite ServeHTTP_canonical by (now apply canonical_pullPath).
  rewrite (Match_pull _ _ _ _ _ _ (kept_value _ Ho) Hn (kept_value _ Hc)
             (kept_value _ Hf) Hp).
  destruct (PullComment_run tok a
              {| http.Method := "POST";
                 http.Path := pullPath owner number commit path position;
                 http.vars := [("owner", owner); ("number", number);
                               ("commit", commit); ("path", path);
                               ("position", position)] |} user None Huser)
    as (s & Hrun & _ & Hcalls & _).
  exists s, EmptyString, (fst (strconv.Atoi number)),
    (fst (strconv.Atoi position)).
  split; [exact Hrun|]. split; [exact Hcalls|].
  split; now apply Atoi_digits_range.
Qed.

Lemma pull_numbers_in_range_witness :
  exists s repo n k,
    serve (ServeHTTP (NewRouter (handle "token"))) (sampleAPI 0 None None None)
      (request "POST"
         "/octocat/pulls/99999999999999999999/abc123/main.go/007/comment")
    = (Some tt, s)
    /\ calls s
       = [github.GetUser "octocat";
          github.CreatePullComment "octocat" repo n
            (pullComment octocat "abc123" "main.go" k)]
    /\ 0 <= n <= 9223372036854775807
    /\ 0 <= k <= 9223372036854775807.
Proof.
  exact (pull_numbers_in_range "token" (handle "token")
           (sampleAPI 0 None None None)
           "octocat" "99999999999999999999" "abc123" "main.go" "007" octocat
           eq_refl eq_refl eq_refl eq_refl eq_refl eq_refl eq_refl).
Defined.

(** ** The writer after the header *)

(** X10: on a writer whose header is already sent, [WriteError] still
    reports the error as handled, but the status and the headers sent
    stay as they were: its 500 is one more, ignored [WriteHeader], and
    the envelope goes after the body already written. *)
Theorem WriteError_after_header (w0 : http.ResponseWriter) (code : Z)
    (msg : string) :
  http.status w0 = Some code ->
  http.broken w0 = None ->
  WriteError w0 (Some msg)
  = ({| http.header := http.header w0;
        http.status := Some code;
        http.sent := http.sent w0;
        http.body := http.body w0 ++ envelope msg;
        http.codes := (http.codes w0 ++ [500])%list;
        http.broken := None |}, true).
Proof.
  intros Hs Hb.
  unfold WriteError, http.Encode, http.Write, http.WriteHeader.
  rewrite Hs. cbn. rewrite ?Hs, Hb. reflexivity.
Qed.

Lemma WriteError_after_header_witness :
  WriteError (fst (http.Write http.NewRecorder "8")) (Some "late")
  = ({| http.header := []; http.status := Some 200; http.sent := [];
        http.body := "8" ++ envelope "late"; http.codes := [200; 500];
        http.broken := None |}, true).
Proof.
  exact (WriteError_after_header (fst (http.Write http.NewRecorder "8")) 200
           "late" eq_refl eq_refl).
Defined.

(** X11: when the listing succeeds and the connection refuses the
    bytes of the count, the second [WriteError] of the count handler
    comes after the header: the response keeps status 200 and the JSON
    content type, its body stays empty, and the 500 is ignored. *)
Theorem GetCount_write_failure (tok : string) (data : datastore)
    (a : github.API) (r : http.Request) (repos : list github.Repository)
    (e : string) :
  New tok = (Some data, None) ->
  github.list_repositories a (var r "owner") None = (repos, None) ->
  exists s,
    GetCount data r
      {| api := a; w := brokenRecorder e; calls := []; stdout := [] |}
    = (Some tt, s)
    /\ http.finish (w s)
       = {| http.StatusCode := 200;
            http.Headers := [("Content-Type", contentType)];
            http.Body := EmptyString |}
    /\ http.codes (w s) = [200; 500].
Proof.
  intros Hnew Hlist. known_handle Hnew.
  unfold GetCount, var in *. unfold bind; cbn. rewrite Hlist. cbn.
  eexists; repeat split; reflexivity.
Qed.

Lemma GetCount_write_failure_witness :
  exists s,
    GetCount (handle "token") countRequest
      {| api := sampleAPI 8 None None None; w := brokenRecorder "broken pipe";
         calls := []; stdout := [] |}
    = (Some tt, s)
    /\ http.finish (w s)
       = {| http.StatusCode := 200;
            http.Headers := [("Content-Type", contentType)];
            http.Body := EmptyString |}
    /\ http.codes (w s) = [200; 500].
Proof.
  exact (GetCount_write_failure "token" (handle "token")
           (sampleAPI 8 None None None) countRequest
           (repeat {| github.Name := "repo" |} 8) "broken pipe"
           eq_refl eq_refl).
Defined.

(** ** What the pull-comment handler prints *)

(** X12: with the user resolved, the outcome of the creation of a pull
    comment goes to the standard output and nowhere else: the error, if
    there is one, then the comment returned; the commit-comment handler
    prints nothing. *)
Theorem comment_outcome_printed (tok : string) (data : datastore)
    (a : github.API) (r : http.Request) (user : option github.User)
    (cmt : option github.PullRequestComment) (err : error) :
  New tok = (Some data, None) ->
  github.get_user a (var r "owner") = (user, None) ->
  github.create_pull_comment a (var r "owner") (var r "repo")
    (fst (strconv.Atoi (var r "number")))
    (pullComment user (var r "commit") (var r "path")
       (fst (strconv.Atoi (var r "position"))))
  = (cmt, err) ->
  (exists s,
     serve (PullComment data) a r = (Some tt, s)
     /\ http.finish (w s) = emptyOK
     /\ stdout s
        = (match err with Some msg => [PrintError msg] | None => [] end
           ++ [PrintComment cmt])%list)
  /\ (exists s,
        serve (CommitComment data) a r = (Some tt, s) /\ stdout s = []).
Proof.
  intros Hnew Huser Hcreate. known_handle Hnew. split.
  - destruct (PullComment_run tok a r user None Huser)
      as (s & Hrun & Hresp & _ & Hout).
    exists s. split; [exact Hrun|]. split; [exact Hresp|].
    cbv zeta in Hout. rewrite Hcreate in Hout. exact Hout.
  - destruct (CommitComment_run tok a r user None Huser)
      as (s & Hrun & _ & _ & Hout).
    exists s. split; assumption.
Qed.

Lemma comment_outcome_printed_witness :
  (exists s,
     serve (PullComment (handle "token")) (sampleAPI 0 None None (Some "boom"))
       commentRequest = (Some tt, s)
     /\ http.finish (w s) = emptyOK
     /\ stdout s = [PrintError "boom"; PrintComment None])
  /\ (exists s,
        serve (CommitComment (handle "token"))
          (sampleAPI 0 None None (Some "boom")) commentRequest = (Some tt, s)
        /\ stdout s = []).
Proof.
  exact (comment_outcome_printed "token" (handle "token")
           (sampleAPI 0 None None (Some "boom")) commentRequest octocat
           None (Some "boom") eq_refl eq_refl eq_refl).
Defined.

(** ** The earlier revision *)

Lemma part_000_Match (data : datastore) (r : http.Request) :
  mux.Match (part_000.NewRouter data) r false
  = match mux.matchItems countItems (http.Path r) with
    | Some vs =>
        if (http.Method r =? "GET")%string then mux.Matched (GetCount data) vs
        else mux.NoMatch mux.ErrMethodMismatch
    | None => mux.NoMatch mux.ErrNotFound
    end.
Proof.
  unfold part_000.NewRouter. cbn [mux.Match].
  change (mux.matchPath (mux.route "GET" "/{owner}/repos/count" (GetCount data))
            (http.Path r))
    with (mux.matchItems countItems (http.Path r)).
  cbn [mux.methods mux.handler mux.route existsb]. rewrite orb_false_r.
  destruct (mux.matchItems countItems (http.Path r));
    destruct (http.Method r =? "GET")%string; reflexivity.
Qed.

(** X13: the router of the earlier revision ([part_000]) hands over GET
    requests of a count path and nothing else, and the router of
    [main.go] treats every such request the same way: the comment routes
    were added without a change to the count route. *)
Theorem earlier_router_extended (data : datastore) (r : http.Request)
    (h : HandlerFunc) (vs : mux.RouteVars) :
  mux.Match (part_000.NewRouter data) r false = mux.Matched h vs ->
  http.Method r = "GET" /\ h = GetCount data
  /\ (exists o,
        value_of mux.NotSlash o = true /\ http.Path r = countPath o
        /\ vs = [("owner", o)])
  /\ mux.Match (NewRouter data) r false = mux.Matched h vs.
Proof.
  rewrite part_000_Match, NewRouter_Match.
  destruct (mux.matchItems countItems (http.Path r)) as [v|] eqn:E;
    [|discriminate].
  destruct (String.eqb_spec (http.Method r) "GET") as [Hm|]; [|discriminate].
  intros [= <- <-]. repeat split; auto.
  now apply count_route_shape.
Qed.

Lemma earlier_router_extended_witness :
  "GET" = "GET" /\ GetCount (handle "token") = GetCount (handle "token")
  /\ (exists o,
        value_of mux.NotSlash o = true /\ "/octocat/repos/count" = countPath o
        /\ [("owner", "octocat")] = [("owner", o)])
  /\ mux.Match (NewRouter (handle "token"))
       (request "GET" "/octocat/repos/count") false
     = mux.Matched (GetCount (handle "token")) [("owner", "octocat")].
Proof.
  exact (earlier_router_extended (handle "token")
           (request "GET" "/octocat/repos/count")
           (GetCount (handle "token")) [("owner", "octocat")] eq_refl).
Defined.

(** X14: in the earlier revision the comment paths are no routes: a
    request of a commit-comment or pull-comment path finds no match,
    under any method. *)
Theorem earlier_router_no_comments (data : datastore) (method : string) :
  (forall o rp c,
     mux.Match (part_000.NewRouter data) (request method (commitPath o rp c))
       false
     = mux.NoMatch mux.ErrNotFound)
  /\ (forall o n c f pos,
        mux.Match (part_000.NewRouter data)
          (request method (pullPath o n c f pos)) false
        = mux.NoMatch mux.ErrNotFound).
Proof.
  split.
  - intros o rp c. rewrite part_000_Match.
    cbn [http.Path http.Method request].
    destruct (mux.matchItems countItems (commitPath o rp c)) eqn:E;
      [exfalso|reflexivity].
    apply count_route_length in E. rewrite commitPath_segments in E.
    cbn [List.length] in E. rewrite !length_app in E. cbn [List.length] in E.
    rewrite !length_app in E. cbn [List.length] in E.
    pose proof (segments_length o). pose proof (segments_length rp).
    pose proof (segments_length c). lia.
  - intros o n c f pos. rewrite part_000_Match.
    cbn [http.Path http.Method request].
    now rewrite count_route_no_pull.
Qed.

Lemma earlier_router_no_comments_witness :
  mux.Match (part_000.NewRouter (handle "token"))
    (request "POST" "/octocat/repos/myrepo/abc123/comment") false
  = mux.NoMatch mux.ErrNotFound
  /\ mux.Match (part_000.NewRouter (handle "token"))
       (request "POST" "/octocat/pulls/42/abc123/main.go/5/comment") false
     = mux.NoMatch mux.ErrNotFound.
Proof.
  split.
  - exact (proj1 (earlier_router_no_comments (handle "token") "POST")
             "octocat" "myrepo" "abc123").
  - exact (proj2 (earlier_router_no_comments (handle "token") "POST")
             "octocat" "42" "abc123" "main.go" "5").
Defined.

(** ** The error envelope on the wire *)

Lemma newlines_app (a b : string) :
  newlines (a ++ b) = (newlines a + newlines b)%nat.
Proof.
  induction a as [|c a IH]; cbn; [reflexivity|]. rewrite IH. lia.
Qed.

Lemma escape_no_newline (c : ascii) : newlines (json.escape c) = 0%nat.
Proof.
  destruct c as [[|] [|] [|] [|] [|] [|] [|] [|]]; reflexivity.
Qed.

Lemma high_not_newline (c : ascii) :
  (N_of_ascii c <? 128)%N = false -> Ascii.eqb c "010" = false.
Proof.
  intros H. destruct (Ascii.eqb_spec c "010") as [->|]; [discriminate|reflexivity].
Qed.

Lemma lead_low (c : ascii) (size : nat) (lo hi : N) :
  json.lead c = Some (size, lo, hi) -> (128 <= lo)%N.
Proof.
  unfold json.lead.
  repeat match goal with
         | |- (if ?b then _ else _) = _ -> _ => destruct b
         end; intros [= <- <- <-] || discriminate; lia.
Qed.

Lemma between_not_newline (lo hi : N) (c : ascii) :
  (128 <= lo)%N -> json.between lo hi c = true -> Ascii.eqb c "010" = false.
Proof.
  intros Hlo H. apply high_not_newline.
  unfold json.between in H. apply andb_prop in H as [H _].
  apply N.leb_le in H. apply N.ltb_ge. lia.
Qed.

Lemma three_no_newline (c1 c2 c3 : ascii) :
  Ascii.eqb c1 "010" = false -> Ascii.eqb c2 "010" = false ->
  Ascii.eqb c3 "010" = false ->
  newlines (json.three c1 c2 c3) = 0%nat.
Proof.
  intros H1 H2 H3. unfold json.three.
  destruct (_ && _) eqn:E.
  - apply andb_prop in E as [_ E]. apply orb_prop in E as [E|E];
      apply Ascii.eqb_eq in E; subst c3; reflexivity.
  - cbn [newlines]. now rewrite H1, H2, H3.
Qed.

Lemma escapes_no_newline_upto (n : nat) :
  forall s, (String.length s <= n)%nat -> newlines (json.escapes s) = 0%nat.
Proof.
  induction n as [|n IH]; intros [|c rest] Hlen; try reflexivity;
    cbn [String.length] in Hlen; [lia|].
  cbn [json.escapes].
  assert (Hrest : newlines (json.escapes rest) = 0%nat) by (apply IH; lia).
  destruct (N_of_ascii c <? 128)%N eqn:Hc.
  { now rewrite newlines_app, escape_no_newline, Hrest. }
  assert (Hrep : newlines (json.replacement ++ json.escapes rest) = 0%nat)
    by (now rewrite newlines_app, Hrest).
  apply high_not_newline in Hc.
  destruct (json.lead c) as [[[size lo] hi]|] eqn:Hl; [|exact Hrep].
  apply lead_low in Hl.
  destruct rest as [|c2 r2]; [exact Hrep|].
  destruct (json.between lo hi c2) eqn:H2; [|exact Hrep].
  apply (between_not_newline _ _ _ Hl) in H2.
  cbn [String.length] in Hlen.
  assert (Hr2 : newlines (json.escapes r2) = 0%nat) by (apply IH; lia).
  assert (Htwo : newlines (String c (String c2 (json.escapes r2))) = 0%nat)
    by (cbn [newlines]; now rewrite Hc, H2, Hr2).
  destruct size as [|[|[|[|size]]]]; try exact Htwo;
    (destruct r2 as [|c3 r3]; [exact Hrep|]);
    (destruct (json.continuation c3) eqn:H3; [|exact Hrep]);
    apply (between_not_newline 128 191 c3 (N.le_refl _)) in H3;
    cbn [String.length] in Hlen;
    assert (Hr3 : newlines (json.escapes r3) = 0%nat) by (apply IH; lia);
    try (rewrite newlines_app, (three_no_newline _ _ _ Hc H2 H3), Hr3;
         reflexivity);
    (destruct r3 as [|c4 r4]; [exact Hrep|]);
    (destruct (json.continuation c4) eqn:H4; [|exact Hrep]);
    apply (between_not_newline 128 191 c4 (N.le_refl _)) in H4;
    cbn [String.length] in Hlen;
    cbn [newlines]; rewrite Hc, H2, H3, H4; cbn [Nat.add];
    apply IH; lia.
Qed.

Lemma escapes_no_newline (s : string) : newlines (json.escapes s) = 0%nat.
Proof. exact (escapes_no_newline_upto (String.length s) s (Nat.le_refl _)). Qed.

(** X15: whatever the message of the error, line breaks included, the
    body [WriteError] writes is one line: the envelope holds a single
    newline, the one the encoder ends it with. *)
Theorem envelope_one_line (msg : string) :
  newlines (envelope msg) = 1%nat
  /\ exists line, envelope msg = line ++ json.newline /\ newlines line = 0%nat.
Proof.
  assert (H : newlines (json.Marshal (json.Map [("error", json.Str msg)])) = 0%nat).
  { cbn [json.Marshal]. unfold json.string_of.
    rewrite !newlines_app, !escapes_no_newline. reflexivity. }
  split.
  - unfold envelope, json.document. rewrite newlines_app, H. reflexivity.
  - eexists. split; [reflexivity|exact H].
Qed.

(** ** A handle without a client *)

(** X16: on a handle whose client is nil every handler panics at its
    first use of the client, before any call to the remote API and
    before anything is written or printed: the state is left as it was.
    This is the case [main] rules out before it builds the router. *)
Theorem nil_client_panics (data : datastore) (r : http.Request) (s : World) :
  Client data = None ->
  GetCount data r s = (None, s)
  /\ CommitComment data r s = (None, s)
  /\ PullComment data r s = (None, s).
Proof.
  intros Hnil. unfold GetCount, CommitComment, PullComment, bind, deref.
  rewrite Hnil.
  destruct (strconv.Atoi (mux.index (mux.Vars r) "number")).
  destruct (strconv.Atoi (mux.index (mux.Vars r) "position")).
  repeat split.
Qed.

Lemma nil_client_panics_witness :
  GetCount {| Context := context.Background; Client := None; Service := None |}
    countRequest (start (sampleAPI 1 None None None))
  = (None, start (sampleAPI 1 None None None))
  /\ CommitComment
       {| Context := context.Background; Client := None; Service := None |}
       countRequest (start (sampleAPI 1 None None None))
     = (None, start (sampleAPI 1 None None None))
  /\ PullComment
       {| Context := context.Background; Client := None; Service := None |}
       countRequest (start (sampleAPI 1 None None None))
     = (None, start (sampleAPI 1 None None None)).
Proof.
  exact (nil_client_panics
           {| Context := context.Background; Client := None; Service := None |}
           countRequest (start (sampleAPI 1 None None None)) eq_refl).
Defined.
